(** * YoutubeDL desktop downloader: the orchestration core of [working_final.py]

    A shallow embedding of the helpers [is_supported_url], [ffmpeg_available],
    [ffprobe_available] and of [DownloadWorker.run], with the properties the
    specification states about them.

    Conventions.
    - A Python [str] is a [string] (ASCII); [None] is the [None] of an option.
    - Library calls whose code is outside the repository are interfaces
      (type classes): [UrlLib] for [urllib.parse.urlparse], [Os] for [os],
      [os.path], [sys.platform] and [shutil.which], [Extractor] for
      [yt_dlp.YoutubeDL] and [traceback.format_exc].  Theorems hold for every
      instance; concrete instances are given to run the code on examples.
    - [DownloadWorker.run] is written in a state-and-exception monad whose
      state records the extractor invocations, the hook buffer and the Qt
      signals emitted. *)

From Stdlib Require Import String Ascii List Bool Arith Lia.
Import ListNotations.
Local Open Scope string_scope.
Local Open Scope list_scope.
Local Open Scope bool_scope.
Local Open Scope nat_scope.

(* ===================================================================== *)
(** ** Python string operations (ASCII) *)
(* ===================================================================== *)

Module PyStr.

(** [c.lower()] for one ASCII character. *)
Definition lower_char (c : ascii) : ascii :=
  let n := nat_of_ascii c in
  if (65 <=? n) && (n <=? 90) then ascii_of_nat (n + 32) else c.

(** [s.lower()] *)
Fixpoint lower (s : string) : string :=
  match s with
  | EmptyString => EmptyString
  | String c r => String (lower_char c) (lower r)
  end.

(** [c.isspace()] on ASCII: TAB, LF, VT, FF, CR, FS, GS, RS, US and space. *)
Definition is_space (c : ascii) : bool :=
  let n := nat_of_ascii c in
  ((9 <=? n) && (n <=? 13)) || ((28 <=? n) && (n <=? 32)).

(** [s.lstrip()] *)
Fixpoint lstrip (s : string) : string :=
  match s with
  | EmptyString => EmptyString
  | String c r => if is_space c then lstrip r else s
  end.

(** [s.rstrip()] *)
Fixpoint rstrip (s : string) : string :=
  match s with
  | EmptyString => EmptyString
  | String c r =>
      match rstrip r with
      | EmptyString => if is_space c then EmptyString else String c EmptyString
      | r' => String c r'
      end
  end.

(** [s.strip()] *)
Definition strip (s : string) : string := rstrip (lstrip s).

(** [s.startswith(p)] *)
Fixpoint startswith (s p : string) {struct p} : bool :=
  match p, s with
  | EmptyString, _ => true
  | String a p', String b s' => Ascii.eqb a b && startswith s' p'
  | String _ _, EmptyString => false
  end.

(** [s.endswith(p)] for a one-character [p]. *)
Fixpoint endswith_char (s : string) (p : ascii) : bool :=
  match s with
  | EmptyString => false
  | String c EmptyString => Ascii.eqb c p
  | String _ r => endswith_char r p
  end.

(** [sub in s] *)
Fixpoint str_in (sub s : string) : bool :=
  startswith s sub ||
  match s with
  | EmptyString => false
  | String _ r => str_in sub r
  end.

(** [c in s] for a character. *)
Fixpoint char_in (c : ascii) (s : string) : bool :=
  match s with
  | EmptyString => false
  | String d r => Ascii.eqb c d || char_in c r
  end.

(** Truth value of a [str]: [bool(s)]. *)
Definition truthy (s : string) : bool := negb (String.eqb s "").

(** Truth value of a value that is a [str] or [None]. *)
Definition truthy_opt (o : option string) : bool :=
  match o with
  | Some s => truthy s
  | None => false
  end.

(** [a or b] on values that are a [str] or [None]. *)
Definition py_or (a b : option string) : option string :=
  if truthy_opt a then a else b.

(** The line feed, and ["\n".join(l)]. *)
Definition nl : string := String (ascii_of_nat 10) EmptyString.

Fixpoint join (sep : string) (l : list string) : string :=
  match l with
  | [] => ""
  | [x] => x
  | x :: r => (x ++ sep ++ join sep r)%string
  end.

(** [l[-n:]] for [n > 0]. *)
Definition lastn {A} (n : nat) (l : list A) : list A :=
  skipn (length l - n) l.

End PyStr.
Import PyStr.

(* ===================================================================== *)
(** ** SiteMatcher: [is_supported_url] *)
(* ===================================================================== *)

(** [urlparse(u).netloc]; [None] when [urlparse] raises [ValueError]. *)
Class UrlLib := { urlparse_netloc : string -> option string }.

Module SiteMatcher.
Section WithUrlLib.
Context {U : UrlLib}.

(** [x.lower().startswith(('http://', 'https://'))] *)
Definition has_http_prefix (x : string) : bool :=
  startswith (lower x) "http://" || startswith (lower x) "https://".

(** Lines 43-46: the string handed to [urlparse]. *)
Definition url_to_parse (url : string) : string :=
  if has_http_prefix url then url else ("https://" ++ url)%string.

(** Lines 54-58: the host fragment of one allow-list entry.  The entry is
    stripped and lower-cased; its [netloc] is used when [urlparse] finds one,
    the entry itself otherwise (also when [urlparse] raises). *)
Definition site_fragment (s : string) : string :=
  let s' := lower (strip s) in
  match urlparse_netloc s' with
  | Some n => if truthy (lower n) then lower n else s'
  | None => s'
  end.

(** Lines 51-60: the [for] loop; [true] when it returns [True] from inside. *)
Fixpoint scan_sites (netloc : string) (supported_sites : list string) : bool :=
  match supported_sites with
  | [] => false
  | s :: rest =>
      if negb (truthy s) then scan_sites netloc rest
      else
        let s_netloc := site_fragment s in
        if truthy s_netloc && str_in s_netloc netloc then true
        else scan_sites netloc rest
  end.

(** Line 48: [(parsed.netloc or "").lower().strip()] of a non-empty URL;
    [None] when [urlparse] raises. *)
Definition candidate_netloc (url : string) : option string :=
  match urlparse_netloc (url_to_parse url) with
  | Some n => Some (strip (lower n))
  | None => None
  end.

(** [is_supported_url(url, supported_sites)]; [url] is a [str] or [None]. *)
Definition is_supported_url (url : option string) (supported_sites : list string) : bool :=
  match url with
  | None => false
  | Some u =>
      if negb (truthy u) then false
      else
        match candidate_netloc u with
        | None => true
        | Some netloc =>
            if negb (truthy netloc) then has_http_prefix (url_to_parse u)
            else if scan_sites netloc supported_sites then true
            else has_http_prefix (url_to_parse u)
        end
  end.

(** The host the matcher compares against: the [netloc] variable of line 48.
    It exists only once line 41 has let the URL through. *)
Definition parsed_host (url : option string) : option string :=
  match url with
  | None => None
  | Some u => if truthy u then candidate_netloc u else None
  end.

End WithUrlLib.
End SiteMatcher.

(* ===================================================================== *)
(** ** An instance of [UrlLib]: CPython's [urlsplit], for ASCII input *)
(* ===================================================================== *)

(** The [netloc] computed by [urllib.parse.urlsplit] (CPython 3.12): leading
    C0 controls and spaces are dropped, TAB/CR/LF are removed, a scheme is
    split off at the first colon, and after a leading [//] the netloc runs to
    the first of [/], [?], [#].  An unbalanced bracket raises [ValueError].
    The validation of a bracketed IPv6 literal and the NFKC check of
    non-ASCII hosts are outside this instance. *)
Module Urllib.

Definition c0_or_space (c : ascii) : bool := nat_of_ascii c <=? 32.

Fixpoint lstrip_c0 (s : string) : string :=
  match s with
  | EmptyString => EmptyString
  | String c r => if c0_or_space c then lstrip_c0 r else s
  end.

Definition unsafe_byte (c : ascii) : bool :=
  let n := nat_of_ascii c in (n =? 9) || (n =? 10) || (n =? 13).

Fixpoint remove_unsafe (s : string) : string :=
  match s with
  | EmptyString => EmptyString
  | String c r => if unsafe_byte c then remove_unsafe r else String c (remove_unsafe r)
  end.

Definition is_alpha (c : ascii) : bool :=
  let n := nat_of_ascii c in
  ((65 <=? n) && (n <=? 90)) || ((97 <=? n) && (n <=? 122)).

Definition is_digit (c : ascii) : bool :=
  let n := nat_of_ascii c in (48 <=? n) && (n <=? 57).

Definition scheme_char (c : ascii) : bool :=
  is_alpha c || is_digit c || char_in c "+-.".

(** The text after the first colon when everything before it is made of
    scheme characters; [None] when there is no such colon. *)
Fixpoint after_scheme (s : string) : option string :=
  match s with
  | EmptyString => None
  | String c r =>
      if Ascii.eqb c ":" then Some r
      else if scheme_char c then after_scheme r
      else None
  end.

Definition drop_scheme (url : string) : string :=
  match url with
  | EmptyString => url
  | String c _ =>
      if is_alpha c then
        match after_scheme url with
        | Some rest => rest
        | None => url
        end
      else url
  end.

(** [_splitnetloc(url, 2)]: up to the first of [/?#]. *)
Fixpoint until_delim (s : string) : string :=
  match s with
  | EmptyString => EmptyString
  | String c r => if char_in c "/?#" then EmptyString else String c (until_delim r)
  end.

Definition netloc (url0 : string) : option string :=
  let url := drop_scheme (remove_unsafe (lstrip_c0 url0)) in
  match url with
  | String "/" (String "/" rest) =>
      let n := until_delim rest in
      if xorb (char_in "[" n) (char_in "]" n) then None else Some n
  | _ => Some ""
  end.

End Urllib.

Definition cpython_urllib : UrlLib := {| urlparse_netloc := Urllib.netloc |}.

(* ===================================================================== *)
(** ** ToolAvailability: [ffmpeg_available], [ffprobe_available] *)
(* ===================================================================== *)

(** What the helpers ask of the operating system. *)
Class Os := {
  platform_win : bool;                      (* sys.platform.startswith('win') *)
  isfile : string -> bool;                  (* os.path.isfile *)
  isdir : string -> bool;                   (* os.path.isdir *)
  access_x : string -> bool;                (* os.access(p, os.X_OK) *)
  path_exists : string -> bool;             (* os.path.exists *)
  which : string -> option string;          (* shutil.which *)
  path_join : string -> string -> string;   (* os.path.join *)
  dirname : string -> string;               (* os.path.dirname *)
  basename : string -> string               (* os.path.basename *)
}.

Definition is_some {A} (o : option A) : bool :=
  match o with Some _ => true | None => false end.

Module ToolAvailability.
Section WithOs.
Context {O : Os}.

(** The guard of lines 68, 94 and 176:
    [ffmpeg_path and ffmpeg_path.strip() and ffmpeg_path.lower() != 'ffmpeg'] *)
Definition explicit_path (ffmpeg_path : string) : bool :=
  truthy ffmpeg_path && truthy (strip ffmpeg_path)
  && negb (String.eqb (lower ffmpeg_path) "ffmpeg").

(** [os.path.isfile(p) and os.access(p, os.X_OK)] *)
Definition executable_file (p : string) : bool := isfile p && access_x p.

(** [candidate = os.path.join(d, name)], with [.exe] added on Windows. *)
Definition candidate_in (d name : string) : string :=
  let candidate := path_join d name in
  if platform_win then (candidate ++ ".exe")%string else candidate.

(** [which(name) is not None] *)
Definition on_search_path (name : string) : bool := is_some (which name).

(** [ffmpeg_available(ffmpeg_path)], lines 65-89. *)
Definition ffmpeg_available (ffmpeg_path : string) : bool :=
  if explicit_path ffmpeg_path then
    let fp := strip ffmpeg_path in
    if executable_file fp then true
    else if isdir fp then
      if executable_file (candidate_in fp "ffmpeg") then true else false
    else
      let maybe_dir := dirname fp in
      if truthy maybe_dir && isdir maybe_dir
         && executable_file (candidate_in maybe_dir "ffmpeg")
      then true
      else on_search_path "ffmpeg"
  else on_search_path "ffmpeg".

(** [ffprobe_available(ffmpeg_path)], lines 91-112. *)
Definition ffprobe_available (ffmpeg_path : string) : bool :=
  if explicit_path ffmpeg_path then
    let fp := strip ffmpeg_path in
    if isfile fp && executable_file (candidate_in (dirname fp) "ffprobe") then true
    else if isdir fp && executable_file (candidate_in fp "ffprobe") then true
    else on_search_path "ffprobe"
  else on_search_path "ffprobe".

(** The resolution order in the words of the specification (section 4.2),
    for one configured path and one binary name; compared with the two
    functions above. *)
Definition binary_available_spec (configured_path binary_name : string) : bool :=
  if truthy configured_path && negb (String.eqb configured_path binary_name) then
    if executable_file configured_path then true
    else if isdir configured_path
            && executable_file (candidate_in configured_path binary_name) then true
    else if negb (isdir configured_path)
            && executable_file (candidate_in (dirname configured_path) binary_name) then true
    else on_search_path binary_name
  else on_search_path binary_name.

End WithOs.
End ToolAvailability.

(* ===================================================================== *)
(** ** An instance of [Os]: POSIX paths over a listed file system *)
(* ===================================================================== *)

Module Posix.

(** [p[:i]] and [p[i:]] for [i = p.rfind('/') + 1]. *)
Fixpoint head (p : string) : string :=
  match p with
  | EmptyString => EmptyString
  | String c r =>
      if char_in "/" r then String c (head r)
      else if Ascii.eqb c "/" then "/" else ""
  end.

Fixpoint tail (p : string) : string :=
  match p with
  | EmptyString => EmptyString
  | String c r =>
      if char_in "/" r then tail r
      else if Ascii.eqb c "/" then r else p
  end.

Fixpoint all_slashes (s : string) : bool :=
  match s with
  | EmptyString => true
  | String c r => Ascii.eqb c "/" && all_slashes r
  end.

(** [s.rstrip('/')] *)
Fixpoint rstrip_slash (s : string) : string :=
  match s with
  | EmptyString => EmptyString
  | String c r =>
      match rstrip_slash r with
      | EmptyString => if Ascii.eqb c "/" then EmptyString else String c EmptyString
      | r' => String c r'
      end
  end.

(** [posixpath.dirname] *)
Definition dirname (p : string) : string :=
  let h := head p in
  if truthy h && negb (all_slashes h) then rstrip_slash h else h.

(** [posixpath.basename] *)
Definition basename (p : string) : string := tail p.

(** [posixpath.join(a, b)] *)
Definition join (a b : string) : string :=
  if startswith b "/" then b
  else if negb (truthy a) || endswith_char a "/" then (a ++ b)%string
  else (a ++ "/" ++ b)%string.

(** A file system given by its regular files (with their execute bit), its
    directories and the answers of [shutil.which]. *)
Record Fs := {
  files : list (string * bool);
  dirs : list string;
  search_path : list (string * string)
}.

Fixpoint assoc {A} (k : string) (l : list (string * A)) : option A :=
  match l with
  | [] => None
  | (k', v) :: r => if String.eqb k k' then Some v else assoc k r
  end.

Definition mem (k : string) (l : list string) : bool :=
  existsb (String.eqb k) l.

Definition os (fs : Fs) : Os :=
  Build_Os
    false
    (fun p => is_some (assoc p (files fs)))
    (fun p => mem p (dirs fs))
    (fun p => match assoc p (files fs) with
              | Some x => x
              | None => mem p (dirs fs)
              end)
    (fun p => is_some (assoc p (files fs)) || mem p (dirs fs))
    (fun name => assoc name (search_path fs))
    join dirname basename.

End Posix.

(* ===================================================================== *)
(** ** The extractor black box and the worker's state *)
(* ===================================================================== *)

(** A raised exception: [type(e).__name__] and [str(e)]. *)
Record Exn := { exn_type : string; exn_msg : string }.

(** One element of [info['requested_downloads']] that is a dict. *)
Record RdEntry := { filepath : option string }.

(** The fields of the metadata dict that [run] reads.  An absent key and a
    [None] value are both [None]; an element of [requested_downloads] that is
    not a dict is [None]. *)
Record InfoDict := {
  requested_downloads : option (list (option RdEntry));
  _filename : option string;
  filename : option string
}.

(** What [extract_info] returns: a dict, or something that is not one. *)
Definition Info := option InfoDict.

(** [ydl_opts].  The keys [logger] and [progress_hooks] are always set by
    [run] and are represented by the hook buffer of the state. *)
Record YdlOpts := {
  outtmpl : string;
  format : string;
  noplaylist : bool;
  cookiefile : option string;
  ffmpeg_location : option string;
  http_headers : option (list (string * string))
}.

(** [yt_dlp.YoutubeDL] and [traceback.format_exc].
    [extract_info n opts url] is the invocation
    [YoutubeDL(opts).extract_info(url, download=True)] made after [n]
    earlier ones: the progress events it hands to the hooks (already as
    [str(d)]), then what it returns or raises. *)
Class Extractor := {
  extract_info : nat -> YdlOpts -> string -> list string * (Info + Exn);
  prepare_filename : string -> InfoDict -> option string;
  format_exc : Exn -> string
}.

(** The Qt signals of [DownloadWorker]. *)
Inductive Signal :=
| download_complete (s : string)
| download_error (s : string).

(** What a run changes: the extractor invocations made so far, the hook
    buffer [debug_messages], and the signals emitted. *)
Record World := {
  invocations : list (YdlOpts * string);
  debug_messages : list string;
  signals : list Signal
}.

Definition empty_world : World :=
  {| invocations := []; debug_messages := []; signals := [] |}.

(** The result of a statement: a value, or an exception in flight. *)
Inductive Res (A : Type) :=
| Ok (a : A)
| Raise (e : Exn).
Arguments Ok {A} a.
Arguments Raise {A} e.

Module PyM.

Definition M (A : Type) : Type := World -> Res A * World.

Definition ret {A} (a : A) : M A := fun w => (Ok a, w).

Definition bind {A B} (c : M A) (k : A -> M B) : M B :=
  fun w =>
    match c w with
    | (Ok a, w') => k a w'
    | (Raise e, w') => (Raise e, w')
    end.

Definition raise {A} (e : Exn) : M A := fun w => (Raise e, w).

(** [try: c  except Exception as e: h e] *)
Definition try_except {A} (c : M A) (h : Exn -> M A) : M A :=
  fun w =>
    match c w with
    | (Ok a, w') => (Ok a, w')
    | (Raise e, w') => h e w'
    end.

Definition get_debug_messages : M (list string) :=
  fun w => (Ok (debug_messages w), w).

Definition set_debug_messages (l : list string) : M unit :=
  fun w => (Ok tt, {| invocations := invocations w;
                      debug_messages := l;
                      signals := signals w |}).

Definition emit (s : Signal) : M unit :=
  fun w => (Ok tt, {| invocations := invocations w;
                      debug_messages := debug_messages w;
                      signals := signals w ++ [s] |}).

End PyM.
Import PyM.

Notation "x <- c1 ;; c2" := (bind c1 (fun x => c2))
  (at level 61, c1 at next level, right associativity).
Notation "c1 ;; c2" := (bind c1 (fun _ => c2))
  (at level 61, right associativity).

(* ===================================================================== *)
(** ** DownloadOrchestrator: [DownloadWorker.run] *)
(* ===================================================================== *)

(** The attributes set by [DownloadWorker.__init__]. *)
Record DownloadWorker := {
  video_url : string;
  ffmpeg_path : string;
  directory : string;
  filename_template : string;
  manual_filename : string;
  cookies_file : string;
  referer : option string
}.

Module Worker.

(** Lines 201-207: the hook appends [str(d)] and drops the oldest entry once
    the buffer holds more than 200. *)
Definition hook_step (buf : list string) (d : string) : list string :=
  let buf' := buf ++ [d] in
  if 200 <? length buf' then tl buf' else buf'.

Definition progress_hook (d : string) : M unit :=
  buf <- get_debug_messages ;;
  set_debug_messages (hook_step buf d).

Fixpoint run_hooks (events : list string) : M unit :=
  match events with
  | [] => ret tt
  | d :: r => progress_hook d ;; run_hooks r
  end.

(** The character class of the pattern of line 153: the control characters
    00-1f and the nine characters < > : double-quote / backslash | ? and
    asterisk, by their codes. *)
Definition reserved_char (c : ascii) : bool :=
  let n := nat_of_ascii c in
  (n <=? 31)
  || (n =? 60) || (n =? 62) || (n =? 58) || (n =? 34) || (n =? 47)
  || (n =? 92) || (n =? 124) || (n =? 63) || (n =? 42).

(** [re.sub(pattern, '_', filename)] for that pattern. *)
Fixpoint re_sub_reserved (s : string) : string :=
  match s with
  | EmptyString => EmptyString
  | String c r => String (if reserved_char c then "_"%char else c) (re_sub_reserved r)
  end.

Definition ext_placeholder : string := "%(ext)s".

(** Line 159 and line 229. *)
Definition format_str : string := "bestvideo+bestaudio/best".
Definition retry_format : string := "best".

(** [dbg]: the last [n] hook messages joined by line feeds. *)
Definition hook_tail (n : nat) (msgs : list string) : string :=
  match msgs with
  | [] => "<no hook messages>"
  | _ => join nl (lastn n msgs)
  end.

Section WithEnv.
Context {O : Os} {X : Extractor}.
Import ToolAvailability.

(** Lines 150-155: the file name part of the output template. *)
Definition output_filename (w : DownloadWorker) : string :=
  if truthy (manual_filename w) then
    let filename := strip (manual_filename w) in
    let filename := basename filename in
    let filename := re_sub_reserved filename in
    if negb (str_in ext_placeholder filename)
       && negb (str_in ext_placeholder (filename_template w))
    then (filename ++ ".%(ext)s")%string
    else filename
  else filename_template w.

(** Line 156. *)
Definition output_template (w : DownloadWorker) : string :=
  path_join (directory w) (output_filename w).

(** Lines 175-184. *)
Definition find_ffmpeg_location (p : string) : option string :=
  if explicit_path p then
    if isfile p then Some (dirname p)
    else if isdir p then Some p
    else
      let maybe_dir := dirname p in
      if truthy maybe_dir && isdir maybe_dir then Some maybe_dir else None
  else None.

(** Lines 189-191. *)
Definition wants_referer (url : string) : bool :=
  str_in "instagram.com" (lower url).

Definition referer_headers : list (string * string) :=
  [("Referer", "https://www.instagram.com/")].

(** [ydl_opts] as it stands at line 218, given the [cookiefile] entry. *)
Definition primary_opts (w : DownloadWorker) (cookie : option string) : YdlOpts :=
  {| outtmpl := output_template w;
     format := format_str;
     noplaylist := true;
     cookiefile := cookie;
     ffmpeg_location :=
       (let loc := find_ffmpeg_location (ffmpeg_path w) in
        if truthy_opt loc then loc else None);
     http_headers :=
       if wants_referer (video_url w) then Some referer_headers else None |}.

(** Lines 228-229: [dict(ydl_opts)] with [format] replaced. *)
Definition retry_opts (o : YdlOpts) : YdlOpts :=
  {| outtmpl := outtmpl o;
     format := retry_format;
     noplaylist := noplaylist o;
     cookiefile := cookiefile o;
     ffmpeg_location := ffmpeg_location o;
     http_headers := http_headers o |}.

(** [with YoutubeDL(opts) as ydl: info = ydl.extract_info(url, download=True)] *)
Definition ydl_extract (opts : YdlOpts) (url : string) : M Info :=
  fun w =>
    let '(events, r) := extract_info (length (invocations w)) opts url in
    let w1 := {| invocations := invocations w ++ [(opts, url)];
                 debug_messages := debug_messages w;
                 signals := signals w |} in
    match run_hooks events w1 with
    | (Ok _, w2) =>
        match r with
        | inl info => (Ok info, w2)
        | inr e => (Raise e, w2)
        end
    | (Raise e, w2) => (Raise e, w2)
    end.

(** Lines 168-172. *)
Definition check_cookies (w : DownloadWorker) : M (option string) :=
  if truthy (cookies_file w) then
    if path_exists (cookies_file w) then ret (Some (cookies_file w))
    else raise {| exn_type := "Exception";
                  exn_msg := ("Cookies file not found: " ++ cookies_file w)%string |}
  else ret None.

Definition ffmpeg_missing : Exn :=
  {| exn_type := "Exception";
     exn_msg := "FFmpeg not found. A full FFmpeg build (with ffprobe) is required to merge audio and video." |}.

Definition ffprobe_missing : Exn :=
  {| exn_type := "Exception";
     exn_msg := "ffprobe (part of FFmpeg) not found. Required for postprocessing/merging." |}.

(** Lines 213-216. *)
Definition check_tools (w : DownloadWorker) : M unit :=
  if negb (ffmpeg_available (ffmpeg_path w)) then raise ffmpeg_missing
  else if negb (ffprobe_available (ffmpeg_path w)) then raise ffprobe_missing
  else ret tt.

(** Line 225. *)
Definition primary_error_text (e : Exn) (msgs : list string) : string :=
  (exn_type e ++ ": " ++ exn_msg e ++ nl ++ nl ++ "Traceback:" ++ nl
   ++ format_exc e ++ nl ++ nl ++ "Last hook messages:" ++ nl
   ++ hook_tail 25 msgs)%string.

(** Lines 235-239. *)
Definition full_error_text (primary_err : string) (e2 : Exn) (msgs : list string) : string :=
  ("Primary error:" ++ nl ++ primary_err ++ nl ++ nl
   ++ "Retry error:" ++ nl ++ exn_type e2 ++ ": " ++ exn_msg e2 ++ nl ++ nl
   ++ "Traceback:" ++ nl ++ format_exc e2 ++ nl ++ nl
   ++ "Collected hook messages:" ++ nl ++ hook_tail 50 msgs)%string.

(** Line 272. *)
Definition outer_error_text (e : Exn) : string :=
  (exn_type e ++ ": " ++ exn_msg e ++ nl ++ nl ++ "Traceback:" ++ nl
   ++ format_exc e)%string.

(** Lines 219-242.  [None] stands for the [return] of line 242. *)
Definition download (opts : YdlOpts) (url : string) : M (option Info) :=
  try_except
    (info <- ydl_extract opts url ;; ret (Some info))
    (fun e =>
       msgs <- get_debug_messages ;;
       let primary_err := primary_error_text e msgs in
       try_except
         (info <- ydl_extract (retry_opts opts) url ;; ret (Some info))
         (fun e2 =>
            msgs2 <- get_debug_messages ;;
            emit (download_error (full_error_text primary_err e2 msgs2)) ;;
            ret None)).

(** Lines 245-263. *)
Definition resolve_saved_path (template : string) (info : Info) : option string :=
  let saved_path :=
    match info with
    | Some d =>
        let from_rd :=
          match requested_downloads d with
          | Some (first :: _) =>
              match first with
              | Some entry => filepath entry
              | None => None
              end
          | _ => None
          end in
        if negb (truthy_opt from_rd) then py_or (_filename d) (filename d)
        else from_rd
    | None => None
    end in
  if negb (truthy_opt saved_path) then
    match info with
    | Some d =>
        match prepare_filename template d with
        | Some p => Some p
        | None => saved_path
        end
    | None => saved_path
    end
  else saved_path.

(** Lines 265-268. *)
Definition report (w : DownloadWorker) (saved_path : option string) : M unit :=
  match saved_path with
  | Some p =>
      if truthy p && path_exists p then emit (download_complete p)
      else emit (download_complete ("Download finished. Saved to " ++ directory w)%string)
  | None => emit (download_complete ("Download finished. Saved to " ++ directory w)%string)
  end.

(** [DownloadWorker.run], lines 147-274. *)
Definition run (w : DownloadWorker) : M unit :=
  try_except
    (cookie <- check_cookies w ;;
     let ydl_opts := primary_opts w cookie in
     set_debug_messages [] ;;
     check_tools w ;;
     r <- download ydl_opts (video_url w) ;;
     match r with
     | None => ret tt
     | Some info => report w (resolve_saved_path (output_template w) info)
     end)
    (fun outer_e => emit (download_error (outer_error_text outer_e))).

End WithEnv.
End Worker.


(* ===================================================================== *)
(** ** Derived notions used in the statements *)
(* ===================================================================== *)

Module Outcome.
Section WithEnv.
Context {O : Os} {X : Extractor}.
Import ToolAvailability Worker.

(** A credential file was named and is not there (lines 168-172). *)
Definition cookies_missing (w : DownloadWorker) : bool :=
  truthy (cookies_file w) && negb (path_exists (cookies_file w)).

(** The [cookiefile] entry when the check of lines 168-172 passes. *)
Definition cookie_entry (w : DownloadWorker) : option string :=
  if truthy (cookies_file w) then Some (cookies_file w) else None.

(** [ydl_opts] of a run whose credential check passes. *)
Definition ydl_opts_of (w : DownloadWorker) : YdlOpts :=
  primary_opts w (cookie_entry w).

(** All checks made before line 219 pass. *)
Definition ready (w : DownloadWorker) : bool :=
  negb (cookies_missing w)
  && ffmpeg_available (ffmpeg_path w)
  && ffprobe_available (ffmpeg_path w).

(** The hook buffer after a list of progress events. *)
Definition feed (events : list string) (buf : list string) : list string :=
  fold_left hook_step events buf.

(** The state at line 200: the hook buffer starts empty. *)
Definition start_world (w : World) : World :=
  {| invocations := invocations w; debug_messages := []; signals := signals w |}.

(** The state after one extractor invocation that produced [events]. *)
Definition attempt_world (w : World) (opts : YdlOpts) (url : string)
    (events : list string) : World :=
  {| invocations := invocations w ++ [(opts, url)];
     debug_messages := feed events (debug_messages w);
     signals := signals w |}.

(** The state after one more signal. *)
Definition with_signal (w : World) (sg : Signal) : World :=
  {| invocations := invocations w;
     debug_messages := debug_messages w;
     signals := signals w ++ [sg] |}.

(** The message of line 268. *)
Definition finished_message (w : DownloadWorker) : string :=
  ("Download finished. Saved to " ++ directory w)%string.

(** First candidate that is a non-empty string. *)
Fixpoint first_truthy (l : list (option string)) : option string :=
  match l with
  | [] => None
  | c :: r => if truthy_opt c then c else first_truthy r
  end.

(** The three places a saved path is looked for, in the order of lines
    248-259: the [filepath] of the first requested download, the
    [_filename] (or [filename]) field, the name rebuilt from the template. *)
Definition path_candidates (template : string) (d : InfoDict) : list (option string) :=
  [ match requested_downloads d with
    | Some (Some entry :: _) => filepath entry
    | _ => None
    end;
    py_or (_filename d) (filename d);
    prepare_filename template d ].

(** The signal the specification expects after a successful attempt
    (section 4.3, step 8): the first candidate found, when it exists on
    disk; the informational message otherwise. *)
Definition expected_completion (w : DownloadWorker) (info : Info) : Signal :=
  match info with
  | Some d =>
      match first_truthy (path_candidates (output_template w) d) with
      | Some p =>
          if path_exists p then download_complete p
          else download_complete (finished_message w)
      | None => download_complete (finished_message w)
      end
  | None => download_complete (finished_message w)
  end.

(** The extractor invocations a run adds to the log. *)
Definition attempts_of (w : DownloadWorker) (world : World) : list (YdlOpts * string) :=
  skipn (length (invocations world)) (invocations (snd (run w world))).

(** The signals a run emits. *)
Definition emitted_by (w : DownloadWorker) (world : World) : list Signal :=
  skipn (length (signals world)) (signals (snd (run w world))).

(** The name of the output file in the words of the specification
    (section 4.3, step 1): base name, disallowed characters removed,
    placeholder appended when neither the explicit name nor the template
    carries one. *)
Fixpoint strip_reserved (s : string) : string :=
  match s with
  | EmptyString => EmptyString
  | String c r => if reserved_char c then strip_reserved r else String c (strip_reserved r)
  end.

Definition effective_name_spec (w : DownloadWorker) : string :=
  if truthy (manual_filename w) then
    let name := strip_reserved (basename (manual_filename w)) in
    if negb (str_in ext_placeholder (manual_filename w))
       && negb (str_in ext_placeholder (filename_template w))
    then (name ++ ".%(ext)s")%string
    else name
  else filename_template w.

End WithEnv.

(** The extractor's format selector syntax: alternatives are separated by
    a slash and tried from left to right; inside an alternative, a plus sign
    joins the streams to merge. *)
Fixpoint split_on (sep : ascii) (s : string) : list string :=
  match s with
  | EmptyString => [EmptyString]
  | String c r =>
      if Ascii.eqb c sep then EmptyString :: split_on sep r
      else
        match split_on sep r with
        | [] => [String c EmptyString]
        | x :: l => String c x :: l
        end
  end.

Definition selector_alternatives (fmt : string) : list string := split_on "/" fmt.
Definition merged_streams (alternative : string) : list string := split_on "+" alternative.

(** An alternative that names one stream only. *)
Definition single_stream (alternative : string) : bool :=
  length (merged_streams alternative) <=? 1.

End Outcome.

(* ===================================================================== *)
(** ** Concrete environments for examples *)
(* ===================================================================== *)

Module Examples.

(** The allow-list of [DEFAULT_CONFIG]. *)
Definition default_sites : list string :=
  ["youtube.com"; "youtu.be"; "music.youtube.com"; "instagram.com"].

Definition default_template : string := "%(title)s [%(id)s].%(ext)s".

(** ffmpeg and ffprobe installed side by side, nothing on the search path. *)
Definition fs_full : Posix.Fs :=
  {| Posix.files := [("/opt/ff/ffmpeg", true); ("/opt/ff/ffprobe", true);
                     ("/home/u/Downloads/clip.mp4", false)];
     Posix.dirs := ["/"; "/opt"; "/opt/ff"; "/home/u/Downloads"];
     Posix.search_path := [] |}.

(** Only ffmpeg is installed. *)
Definition fs_ffmpeg_only : Posix.Fs :=
  {| Posix.files := [("/opt/ff/ffmpeg", true)];
     Posix.dirs := ["/"; "/opt"; "/opt/ff"; "/home/u/Downloads"];
     Posix.search_path := [] |}.

(** The tools are on the search path; [/opt/empty] is a directory without
    them. *)
Definition fs_on_path : Posix.Fs :=
  {| Posix.files := [("/usr/bin/ffmpeg", true); ("/usr/bin/ffprobe", true)];
     Posix.dirs := ["/"; "/usr"; "/usr/bin"; "/opt"; "/opt/empty"];
     Posix.search_path := [("ffmpeg", "/usr/bin/ffmpeg"); ("ffprobe", "/usr/bin/ffprobe")] |}.

(** An extractor that replays a script, one entry per invocation; past the
    end of the script it raises. *)
Definition scripted (script : list (list string * (Info + Exn)))
    (rebuilt : option string) : Extractor :=
  {| extract_info n _ _ :=
       nth n script ([], inr {| exn_type := "DownloadError"; exn_msg := "no more data" |});
     prepare_filename _ _ := rebuilt;
     format_exc e := ("Traceback (most recent call last): " ++ exn_msg e)%string |}.

Definition boom (msg : string) : Info + Exn :=
  inr {| exn_type := "DownloadError"; exn_msg := msg |}.

Definition info_with_path (p : string) : Info + Exn :=
  inl (Some {| requested_downloads := Some [Some {| filepath := Some p |}];
               _filename := None;
               filename := None |}).

Definition job (url manual : string) : DownloadWorker :=
  {| video_url := url;
     ffmpeg_path := "/opt/ff/ffmpeg";
     directory := "/home/u/Downloads";
     filename_template := default_template;
     manual_filename := manual;
     cookies_file := "";
     referer := None |}.

(** Scripts: both attempts raise; the retry returns; the first attempt
    returns. *)
Definition both_fail : Extractor :=
  scripted [(["e1"; "e2"], boom "Requested format is not available");
            (["e3"], boom "network unreachable")] None.

Definition retry_works : Extractor :=
  scripted [(["e1"; "e2"], boom "Requested format is not available");
            (["e3"], info_with_path "/home/u/Downloads/clip.mp4")] None.

Definition first_works : Extractor :=
  scripted [(["e1"], info_with_path "/home/u/Downloads/clip.mp4")] None.

Definition os_full : Os := Posix.os fs_full.

Definition job_with_cookies (url cookies : string) : DownloadWorker :=
  {| video_url := url;
     ffmpeg_path := "/opt/ff/ffmpeg";
     directory := "/home/u/Downloads";
     filename_template := default_template;
     manual_filename := "";
     cookies_file := cookies;
     referer := None |}.

End Examples.

(* ===================================================================== *)
(** ** MainHub: the handler of the Download button *)
(* ===================================================================== *)

Module Hub.

(** The attributes of [MainHub] that [on_download_clicked] reads: the
    settings put there by [load_config] and the text of the two input
    fields. *)
Record MainHub := {
  ffmpeg_path : string;
  save_directory : string;
  supported_sites : list string;
  filename_template : string;
  cookies_file : string;
  url_input : string;
  filename_input : string
}.

(** What the handler does to the window, in order. *)
Inductive UiEffect :=
| warning (title text : string)            (* QMessageBox.warning *)
| question (title text : string)           (* QMessageBox.question *)
| setEnabled (enabled : bool)              (* download_button.setEnabled *)
| setText (text : string)                  (* download_button.setText *)
| start (worker : DownloadWorker).         (* DownloadWorker(...).start() *)

Section WithUrlLib.
Context {U : UrlLib}.

(** Lines 467-480.  [save_directory] is always set by [load_config], so
    the [getattr] of line 473 yields it; [referer] keeps its default. *)
Definition start_worker (h : MainHub) (video_url manual_filename : string) : list UiEffect :=
  [ setEnabled false;
    setText "Downloading...";
    start (Build_DownloadWorker video_url (ffmpeg_path h) (save_directory h)
             (filename_template h) manual_filename (cookies_file h) None) ].

(** [MainHub.on_download_clicked], lines 454-480; [choice_yes] is the
    answer the user would give to the question box. *)
Definition on_download_clicked (h : MainHub) (choice_yes : bool) : list UiEffect :=
  let video_url := strip (url_input h) in
  let manual_filename := strip (filename_input h) in
  if negb (truthy video_url) then
    [warning "Warning" "Please paste a URL to download."]
  else if negb (SiteMatcher.is_supported_url (Some video_url) (supported_sites h)) then
    question "Unknown site" "URL seems outside supported sites. Try anyway?"
    :: (if negb choice_yes then [] else start_worker h video_url manual_filename)
  else start_worker h video_url manual_filename.

End WithUrlLib.
End Hub.

(* ===================================================================== *)
(** ** ConfigDialog: the allow-list as text *)
(* ===================================================================== *)

Module ConfigDialog.

(** The ASCII line boundaries of [str.splitlines]: LF, VT, FF, CR, FS, GS
    and RS; CR followed by LF is one boundary. *)
Definition is_linebreak (c : ascii) : bool :=
  let n := nat_of_ascii c in
  ((10 <=? n) && (n <=? 13)) || ((28 <=? n) && (n <=? 30)).

Definition is_cr (c : ascii) : bool := nat_of_ascii c =? 13.
Definition is_lf (c : ascii) : bool := nat_of_ascii c =? 10.

(** [s.splitlines()]; [after_cr] tells that the character before [s] was a
    CR, whose LF is then skipped. *)
Fixpoint splitlines_from (after_cr : bool) (s : string) : list string :=
  match s with
  | EmptyString => []
  | String c r =>
      if after_cr && is_lf c then splitlines_from false r
      else if is_linebreak c then EmptyString :: splitlines_from (is_cr c) r
      else
        match splitlines_from false r with
        | [] => [String c EmptyString]
        | line :: rest => String c line :: rest
        end
  end.

Definition splitlines (s : string) : list string := splitlines_from false s.

(** Line 364:
    [[line.strip() for line in text.splitlines() if line.strip()]] *)
Definition sites_of_text (text : string) : list string :=
  filter truthy (map strip (splitlines text)).

(** Line 356: the text put in the box, ["\n".join(sites)]. *)
Definition text_of_sites (sites : list string) : string := join nl sites.

(** No line boundary occurs in [s]. *)
Fixpoint one_line (s : string) : bool :=
  match s with
  | EmptyString => true
  | String c r => negb (is_linebreak c) && one_line r
  end.

End ConfigDialog.

(* ===================================================================== *)
(** ** Loading and saving the settings *)
(* ===================================================================== *)

Module Settings.

(** The JSON object of [config.json]: each of the five keys is present or
    not; a present key holds a value of the type the program writes
    (a string, or a list of strings for the allow-list). *)
Record Config := {
  key_ffmpeg_path : option string;
  key_save_directory : option string;
  key_filename_template : option string;
  key_supported_sites : option (list string);
  key_cookies_file : option string
}.

(** What [load_config] finds at [CONFIG_FILE_PATH]: no file, a file that
    [json.load] cannot read, or an object. *)
Inductive ConfigFile :=
| absent
| unreadable
| holds (c : Config).

(** The five line edits of [ConfigDialog]. *)
Record DialogFields := {
  ffmpeg_path_input : string;
  save_directory_input : string;
  template_string_input : string;
  supported_sites_input : string;
  cookies_file_input : string
}.

(** [d.get(key, default)] *)
Definition get {A} (o : option A) (default : A) : A :=
  match o with
  | Some v => v
  | None => default
  end.

Section WithPaths.
(** [os.path.join(os.path.expanduser("~"), "Downloads")] and
    [os.path.normpath]. *)
Variable default_save_directory : string.
Variable normpath : string -> string.

(** Lines 15-26. *)
Definition DEFAULT_CONFIG : Config :=
  {| key_ffmpeg_path := Some "ffmpeg";
     key_save_directory := Some default_save_directory;
     key_filename_template := Some "%(title)s [%(id)s].%(ext)s";
     key_supported_sites :=
       Some ["youtube.com"; "youtu.be"; "music.youtube.com"; "instagram.com"];
     key_cookies_file := Some "" |}.

(** Lines 344-351 and 391-398: [self.config] after the file was looked at. *)
Definition read_config (f : ConfigFile) : Config :=
  match f with
  | holds c => c
  | absent | unreadable => DEFAULT_CONFIG
  end.

(** [MainHub.load_config], lines 390-403: the settings are replaced, the
    input fields are left alone. *)
Definition hub_load_config (f : ConfigFile) (h : Hub.MainHub) : Hub.MainHub :=
  let config := read_config f in
  {| Hub.ffmpeg_path := get (key_ffmpeg_path config) "ffmpeg";
     Hub.save_directory := get (key_save_directory config) default_save_directory;
     Hub.supported_sites :=
       get (key_supported_sites config)
         ["youtube.com"; "youtu.be"; "music.youtube.com"; "instagram.com"];
     Hub.filename_template :=
       get (key_filename_template config) "%(title)s [%(id)s].%(ext)s";
     Hub.cookies_file := get (key_cookies_file config) "";
     Hub.url_input := Hub.url_input h;
     Hub.filename_input := Hub.filename_input h |}.


(** [ConfigDialog.get_config], lines 359-366. *)
Definition get_config (d : DialogFields) : Config :=
  {| key_ffmpeg_path := Some (ffmpeg_path_input d);
     key_save_directory := Some (save_directory_input d);
     key_filename_template := Some (template_string_input d);
     key_supported_sites := Some (ConfigDialog.sites_of_text (supported_sites_input d));
     key_cookies_file := Some (cookies_file_input d) |}.

(** The object [ConfigDialog.save_config] hands to [json.dump],
    lines 369-371. *)
Definition saved_config (d : DialogFields) : Config :=
  let config := get_config d in
  {| key_ffmpeg_path := Some (normpath (ffmpeg_path_input d));
     key_save_directory := Some (normpath (save_directory_input d));
     key_filename_template := key_filename_template config;
     key_supported_sites := key_supported_sites config;
     key_cookies_file := key_cookies_file config |}.

(** [MainHub.open_config_dialog], lines 507-512, when the dialog is accepted
    with the fields [edited] and the file is written: the hub reloads what
    was saved. *)
Definition accept_dialog (edited : DialogFields) (h : Hub.MainHub) : Hub.MainHub :=
  hub_load_config (holds (saved_config edited)) h.

End WithPaths.
End Settings.

(* ===================================================================== *)
(** ** More concrete data for examples *)
(* ===================================================================== *)

Module MoreExamples.

Definition hub (url name : string) : Hub.MainHub :=
  {| Hub.ffmpeg_path := "/opt/ff/ffmpeg";
     Hub.save_directory := "/home/u/Downloads";
     Hub.supported_sites := Examples.default_sites;
     Hub.filename_template := Examples.default_template;
     Hub.cookies_file := "";
     Hub.url_input := url;
     Hub.filename_input := name |}.

(** ffprobe lies beside the configured ffmpeg and nowhere else. *)
Definition job_at (ffmpeg : string) : DownloadWorker :=
  {| video_url := "https://youtu.be/x";
     ffmpeg_path := ffmpeg;
     directory := "/home/u/Downloads";
     filename_template := Examples.default_template;
     manual_filename := "";
     cookies_file := "";
     referer := None |}.


End MoreExamples.

(* ===================================================================== *)
(** * Properties of SiteMatcher *)
(* ===================================================================== *)

Module SiteMatcherFacts.
Import SiteMatcher.
Section WithUrlLib.
Context {U : UrlLib}.

Lemma truthy_true_iff (s : string) : truthy s = true <-> s <> "".
Proof.
  unfold truthy. rewrite negb_true_iff. split.
  - intros H E. subst s. discriminate H.
  - intros H. apply String.eqb_neq. exact H.
Qed.

Lemma lower_app (a b : string) :
  lower (a ++ b) = (lower a ++ lower b)%string.
Proof. induction a as [|c a IH]; cbn; [reflexivity | now rewrite IH]. Qed.

Lemma startswith_app (p s : string) : startswith (p ++ s) p = true.
Proof.
  induction p as [|c p IH]; cbn; [reflexivity|].
  rewrite Ascii.eqb_refl. exact IH.
Qed.

(** Whatever the input, the string handed to [urlparse] carries an http or
    https prefix: either the URL had one, or line 44 put one in front. *)
Lemma url_to_parse_has_prefix (u : string) :
  has_http_prefix (url_to_parse u) = true.
Proof.
  unfold url_to_parse.
  destruct (has_http_prefix u) eqn:E; [exact E|].
  unfold has_http_prefix. rewrite lower_app.
  change (lower "https://") with "https://".
  rewrite startswith_app. apply orb_true_r.
Qed.

(** A URL without prefix is parsed with [https://] in front. *)
Lemma url_to_parse_bare (u : string) :
  has_http_prefix u = false -> url_to_parse u = ("https://" ++ u)%string.
Proof. unfold url_to_parse. intros ->. reflexivity. Qed.

(** Every return statement reached by a non-empty URL returns [True]. *)
Lemma is_supported_url_nonempty (u : string) (sites : list string) :
  truthy u = true -> is_supported_url (Some u) sites = true.
Proof.
  intros Hu. unfold is_supported_url. rewrite Hu. cbn [negb].
  destruct (candidate_netloc u) as [netloc|]; [|reflexivity].
  rewrite url_to_parse_has_prefix.
  destruct (negb (truthy netloc)); [reflexivity|].
  destruct (scan_sites netloc sites); reflexivity.
Qed.

(** A host exists only for a URL that is present and not empty. *)
Lemma parsed_host_some (url : option string) (host : string) :
  parsed_host url = Some host ->
  exists u, url = Some u /\ truthy u = true /\ candidate_netloc u = Some host.
Proof.
  destruct url as [u|]; cbn; [|discriminate].
  destruct (truthy u) eqn:Hu; [|discriminate].
  intros H. exists u. auto.
Qed.

(** The loop itself answers when the entry and its fragment are not empty
    and the fragment occurs in the host. *)
Lemma scan_sites_hit (host E : string) :
  truthy E = true ->
  truthy (site_fragment E) = true ->
  str_in (site_fragment E) host = true ->
  scan_sites host [E] = true.
Proof.
  intros HE Hf Hin. cbn. rewrite HE, Hf, Hin. reflexivity.
Qed.

(** Both sides of the comparison of line 59 are in lower case, so the
    containment test ignores the letter case of the URL and of the entry. *)
Lemma lower_char_idem (c : ascii) : lower_char (lower_char c) = lower_char c.
Proof.
  destruct c as [[] [] [] [] [] [] [] []]; reflexivity.
Qed.

Lemma is_space_lower_char (c : ascii) : is_space (lower_char c) = is_space c.
Proof.
  destruct c as [[] [] [] [] [] [] [] []]; reflexivity.
Qed.

Lemma lower_idem (s : string) : lower (lower s) = lower s.
Proof.
  induction s as [|c s IH]; cbn; [reflexivity|].
  now rewrite lower_char_idem, IH.
Qed.

Lemma lower_lstrip (s : string) : lower (lstrip s) = lstrip (lower s).
Proof.
  induction s as [|c s IH]; cbn [lstrip lower]; [reflexivity|].
  rewrite is_space_lower_char. destruct (is_space c); [exact IH|reflexivity].
Qed.

Lemma lower_rstrip (s : string) : lower (rstrip s) = rstrip (lower s).
Proof.
  induction s as [|c s IH]; cbn [rstrip lower]; [reflexivity|].
  rewrite <- IH, is_space_lower_char.
  destruct (rstrip s); cbn [lower]; [|reflexivity].
  destruct (is_space c); reflexivity.
Qed.

Lemma lower_strip (s : string) : lower (strip s) = strip (lower s).
Proof. unfold strip. now rewrite lower_rstrip, lower_lstrip. Qed.

Lemma match_is_case_insensitive (url : option string) (host E : string) :
  parsed_host url = Some host ->
  lower host = host /\ lower (site_fragment E) = site_fragment E.
Proof.
  intros Hh. split.
  - destruct (parsed_host_some _ _ Hh) as (u & _ & _ & Hc).
    unfold candidate_netloc in Hc.
    destruct (urlparse_netloc (url_to_parse u)) as [n|]; [|discriminate].
    inversion Hc. now rewrite lower_strip, lower_idem.
  - unfold site_fragment.
    destruct (urlparse_netloc (lower (strip E))) as [n|]; [|apply lower_idem].
    destruct (truthy (lower n)); apply lower_idem.
Qed.

(** C7. An allow-list entry whose host fragment (stripped, lower-cased)
    occurs in the lower-cased host parsed from the URL makes
    [is_supported_url] answer true, and when the entry and its fragment are
    not empty it is the loop over the allow-list that finds the match; a URL
    without http/https prefix is parsed
    with [https://] in front and, being non-empty, is accepted by the prefix
    fallback even with an empty allow-list, as is ["example.com"]. *)
Theorem is_supported_url_fragment_and_fallback :
  (forall url E host,
      parsed_host url = Some host ->
      str_in (site_fragment E) host = true ->
      is_supported_url url [E] = true
      /\ (truthy E = true -> truthy (site_fragment E) = true ->
          scan_sites host [E] = true))
  /\ (forall u,
      has_http_prefix u = false ->
      url_to_parse u = ("https://" ++ u)%string
      /\ (truthy u = true -> is_supported_url (Some u) [] = true))
  /\ is_supported_url (Some "example.com") [] = true.
Proof.
  split; [|split].
  - intros url E host Hh Hin. split.
    + destruct (parsed_host_some _ _ Hh) as (u & -> & Hu & _).
      apply is_supported_url_nonempty. exact Hu.
    + intros HE Hf. apply scan_sites_hit; assumption.
  - intros u Hp. split.
    + apply url_to_parse_bare. exact Hp.
    + intros Hu. apply is_supported_url_nonempty. exact Hu.
  - apply is_supported_url_nonempty. reflexivity.
Qed.

(** C10. An absent URL ([None]) and the empty string are rejected, for every
    allow-list, by the guard of line 41; no fallback is consulted. *)
Theorem is_supported_url_absent (sites : list string) :
  is_supported_url None sites = false
  /\ is_supported_url (Some "") sites = false.
Proof. split; reflexivity. Qed.

End WithUrlLib.

Example music_host :
  @parsed_host cpython_urllib (Some "https://Music.YouTube.com/watch?v=1")
  = Some "music.youtube.com".
Proof. reflexivity. Qed.

Example lookalike_host_matches :
  @scan_sites cpython_urllib "notyoutube.com.evil.test" Examples.default_sites = true.
Proof. reflexivity. Qed.

Lemma is_supported_url_fragment_and_fallback_witness :
  @parsed_host cpython_urllib (Some "https://Music.YouTube.com/watch?v=1")
    = Some "music.youtube.com"
  /\ str_in (@site_fragment cpython_urllib " YouTube.com ") "music.youtube.com" = true
  /\ @is_supported_url cpython_urllib
       (Some "https://Music.YouTube.com/watch?v=1") [" YouTube.com "] = true
  /\ @has_http_prefix "example.com" = false
  /\ @is_supported_url cpython_urllib (Some "example.com") [] = true.
Proof.
  split; [reflexivity|]. split; [reflexivity|]. split.
  - apply (proj1 (proj1 (@is_supported_url_fragment_and_fallback cpython_urllib)
                    (Some "https://Music.YouTube.com/watch?v=1") " YouTube.com "
                    "music.youtube.com" eq_refl eq_refl)).
  - split; [reflexivity|].
    apply (proj2 (proj1 (proj2 (@is_supported_url_fragment_and_fallback cpython_urllib))
                    "example.com" eq_refl)).
    reflexivity.
Defined.

End SiteMatcherFacts.

(* ===================================================================== *)
(** * Properties of ToolAvailability *)
(* ===================================================================== *)

Module ToolAvailabilityFacts.
Import ToolAvailability.
Section WithOs.
Context {O : Os}.

(** Without an explicit path both helpers only search the system path. *)
Lemma not_explicit_search_path (p : string) :
  explicit_path p = false ->
  ffmpeg_available p = on_search_path "ffmpeg"
  /\ ffprobe_available p = on_search_path "ffprobe".
Proof. intros H. unfold ffmpeg_available, ffprobe_available. rewrite H. auto. Qed.

(** [ffprobe_available] in closed form: ffprobe beside the configured file,
    or inside the configured directory, or on the search path. *)
Lemma ffprobe_available_eq (p : string) :
  ffprobe_available p =
  (explicit_path p
   && ((isfile (strip p) && executable_file (candidate_in (dirname (strip p)) "ffprobe"))
       || (isdir (strip p) && executable_file (candidate_in (strip p) "ffprobe"))))
  || on_search_path "ffprobe".
Proof.
  unfold ffprobe_available.
  destruct (explicit_path p); cbn [andb orb]; [|reflexivity].
  destruct (isfile (strip p) && _); cbn [orb]; [reflexivity|].
  destruct (isdir (strip p) && _); reflexivity.
Qed.

(** C3 (as amended). The two helpers take the configured ffmpeg path; it is
    explicit when it is not blank and is not [ffmpeg] in any letter case.
    [ffmpeg_available] answers true when the explicit path, stripped, is an
    executable file, or is a directory holding an executable [ffmpeg]
    ([ffmpeg.exe] on Windows), or is no directory while its parent directory
    holds one, or is no directory while [ffmpeg] is on the search path; with
    no explicit path it is the search of the system path; and when the path
    is not a directory, the answer false means that the explicit file, the
    parent directory and the search path were all tried without a match.
    [ffprobe_available] answers true exactly when the explicit path is a file
    with an executable [ffprobe] beside it, or a directory holding one, or
    [ffprobe] is on the search path. *)
Theorem tool_resolution_order (p : string) :
  let fp := strip p in
  (explicit_path p = true -> executable_file fp = true ->
     ffmpeg_available p = true)
  /\ (explicit_path p = true -> isdir fp = true ->
      executable_file (candidate_in fp "ffmpeg") = true ->
      ffmpeg_available p = true)
  /\ (explicit_path p = true -> isdir fp = false ->
      truthy (dirname fp) = true -> isdir (dirname fp) = true ->
      executable_file (candidate_in (dirname fp) "ffmpeg") = true ->
      ffmpeg_available p = true)
  /\ (explicit_path p = true -> isdir fp = false ->
      on_search_path "ffmpeg" = true ->
      ffmpeg_available p = true)
  /\ (explicit_path p = false ->
      ffmpeg_available p = on_search_path "ffmpeg")
  /\ (explicit_path p = true -> isdir fp = false ->
      ffmpeg_available p = false ->
      executable_file fp = false
      /\ (truthy (dirname fp) && isdir (dirname fp)
          && executable_file (candidate_in (dirname fp) "ffmpeg")) = false
      /\ on_search_path "ffmpeg" = false)
  /\ ffprobe_available p =
     (explicit_path p
      && ((isfile fp && executable_file (candidate_in (dirname fp) "ffprobe"))
          || (isdir fp && executable_file (candidate_in fp "ffprobe"))))
     || on_search_path "ffprobe".
Proof.
  cbv zeta. repeat split.
  - intros He Hx. unfold ffmpeg_available. now rewrite He, Hx.
  - intros He Hd Hc. unfold ffmpeg_available. rewrite He, Hd, Hc.
    now destruct (executable_file (strip p)).
  - intros He Hd Ht Hpd Hc. unfold ffmpeg_available.
    rewrite He, Hd, Ht, Hpd, Hc. now destruct (executable_file (strip p)).
  - intros He Hd Hw. unfold ffmpeg_available. rewrite He, Hd, Hw.
    destruct (executable_file (strip p)); [reflexivity|].
    now destruct (truthy _ && _ && _).
  - intros He. apply not_explicit_search_path. exact He.
  - revert H1. unfold ffmpeg_available. rewrite H, H0.
    destruct (executable_file (strip p)); [discriminate|reflexivity].
  - revert H1. unfold ffmpeg_available. rewrite H, H0.
    destruct (executable_file (strip p)); [discriminate|].
    destruct (truthy _ && _ && _); [discriminate|reflexivity].
  - revert H1. unfold ffmpeg_available. rewrite H, H0.
    destruct (executable_file (strip p)); [discriminate|].
    destruct (truthy _ && _ && _); [discriminate|]. auto.
  - apply ffprobe_available_eq.
Qed.

End WithOs.

Import Examples.

(** C3 (as stated) fails: the configured path names an executable file, the
    first step of the stated order, yet [ffprobe_available] answers false
    because no ffprobe lies beside it or on the search path. *)
Lemma executable_configured_file_is_not_ffprobe :
  @executable_file (Posix.os fs_ffmpeg_only) "/opt/ff/ffmpeg" = true
  /\ @binary_available_spec (Posix.os fs_ffmpeg_only) "/opt/ff/ffmpeg" "ffprobe" = true
  /\ @ffprobe_available (Posix.os fs_ffmpeg_only) "/opt/ff/ffmpeg" = false.
Proof. repeat split; vm_compute; reflexivity. Qed.

(** A configured directory without the binary ends [ffmpeg_available] at
    line 78, before the search path is consulted; [ffprobe_available] goes
    on to the search path in the same situation. *)
Example configured_directory_without_binary :
  @on_search_path (Posix.os fs_on_path) "ffmpeg" = true
  /\ @ffmpeg_available (Posix.os fs_on_path) "/opt/empty" = false
  /\ @ffprobe_available (Posix.os fs_on_path) "/opt/empty" = true.
Proof. repeat split; vm_compute; reflexivity. Qed.

Lemma tool_resolution_order_witness :
  @explicit_path "/opt/ff/ffmpeg" = true
  /\ @executable_file (Posix.os fs_full) (strip "/opt/ff/ffmpeg") = true
  /\ @ffmpeg_available (Posix.os fs_full) "/opt/ff/ffmpeg" = true
  /\ @ffmpeg_available (Posix.os fs_full) " /opt/ff " = true
  /\ @ffmpeg_available (Posix.os fs_on_path) "ffmpeg" = true.
Proof.
  split; [reflexivity|]. split; [reflexivity|]. split; [|split].
  - apply (proj1 (@tool_resolution_order (Posix.os fs_full) "/opt/ff/ffmpeg"));
      reflexivity.
  - apply (proj1 (proj2 (@tool_resolution_order (Posix.os fs_full) " /opt/ff ")));
      reflexivity.
  - rewrite (proj1 (proj2 (proj2 (proj2 (proj2
               (@tool_resolution_order (Posix.os fs_on_path) "ffmpeg"))))));
      reflexivity.
Defined.

End ToolAvailabilityFacts.

(* ===================================================================== *)
(** * Properties of DownloadWorker.run *)
(* ===================================================================== *)

Module WorkerFacts.
Import ToolAvailability Worker Outcome.

(** ** The hook buffer *)

Lemma lastn_length {A} (n : nat) (l : list A) :
  length (lastn n l) = Nat.min n (length l).
Proof. unfold lastn. rewrite length_skipn. lia. Qed.

Lemma lastn_all {A} (n : nat) (l : list A) :
  length l <= n -> lastn n l = l.
Proof.
  intros H. unfold lastn. replace (length l - n) with 0 by lia. reflexivity.
Qed.

Lemma skipn_app_le {A} (k : nat) (l r : list A) :
  k <= length l -> skipn k (l ++ r) = skipn k l ++ r.
Proof.
  intros H. rewrite skipn_app. replace (k - length l) with 0 by lia. reflexivity.
Qed.

(** Keeping the last [n] entries twice is keeping them once. *)
Lemma lastn_app_lastn {A} (n : nat) (l r : list A) :
  lastn n (lastn n l ++ r) = lastn n (l ++ r).
Proof.
  unfold lastn at 2.
  rewrite <- skipn_app_le by lia.
  unfold lastn. rewrite skipn_skipn. f_equal.
  rewrite length_skipn, !length_app. lia.
Qed.

(** One call of the hook keeps the last 200 of the old entries and the new
    one, provided the buffer was within its bound. *)
Lemma hook_step_lastn (buf : list string) (d : string) :
  length buf <= 200 -> hook_step buf d = lastn 200 (buf ++ [d]).
Proof.
  intros H. unfold hook_step, lastn.
  rewrite length_app. cbn [length].
  destruct (200 <? length buf + 1) eqn:E.
  - apply Nat.ltb_lt in E.
    replace (length buf + 1 - 200) with 1 by lia. reflexivity.
  - apply Nat.ltb_ge in E.
    replace (length buf + 1 - 200) with 0 by lia. reflexivity.
Qed.

Lemma feed_lastn (events buf : list string) :
  length buf <= 200 -> feed events buf = lastn 200 (buf ++ events).
Proof.
  revert buf. induction events as [|d events IH]; intros buf H.
  - cbn. rewrite app_nil_r. symmetry. apply lastn_all. exact H.
  - cbn. unfold feed in IH. rewrite IH.
    + rewrite hook_step_lastn by exact H.
      rewrite lastn_app_lastn, <- app_assoc. reflexivity.
    + rewrite hook_step_lastn by exact H. rewrite lastn_length. lia.
Qed.

Lemma feed_app (e1 e2 buf : list string) :
  feed (e1 ++ e2) buf = feed e2 (feed e1 buf).
Proof. unfold feed. apply fold_left_app. Qed.

Lemma run_hooks_eq (events : list string) (w : World) :
  run_hooks events w =
  (Ok tt, {| invocations := invocations w;
             debug_messages := feed events (debug_messages w);
             signals := signals w |}).
Proof.
  revert w. induction events as [|d events IH]; intros w.
  - destruct w; reflexivity.
  - cbn [run_hooks]. unfold bind, progress_hook, bind, get_debug_messages,
      set_debug_messages. rewrite IH. reflexivity.
Qed.

(** C9. From the empty buffer of line 200, after any sequence of progress
    events the buffer holds at most 200 entries and they are the last 200
    events received, in order; each call of the hook appends the new entry
    and, when that makes 201, drops the entry at the front. *)
Theorem progress_buffer_is_bounded_ring (events : list string) (w : World) :
  let w' := snd ((set_debug_messages [] ;; run_hooks events) w) in
  length (debug_messages w') <= 200
  /\ debug_messages w' = lastn 200 events
  /\ (forall d,
        debug_messages (snd (progress_hook d w')) =
        if length (debug_messages w') =? 200
        then tl (debug_messages w') ++ [d]
        else debug_messages w' ++ [d]).
Proof.
  cbv zeta. unfold bind, set_debug_messages. rewrite run_hooks_eq. cbn [snd debug_messages].
  assert (E : feed events [] = lastn 200 events).
  { rewrite feed_lastn by (cbn; lia). reflexivity. }
  rewrite E. split; [|split].
  - rewrite lastn_length. lia.
  - reflexivity.
  - intros d. unfold progress_hook, bind, get_debug_messages, set_debug_messages.
    cbn [snd debug_messages]. unfold hook_step. rewrite length_app. cbn [length].
    pose proof (lastn_length 200 events) as L.
    destruct (length (lastn 200 events) =? 200) eqn:E2.
    + apply Nat.eqb_eq in E2. rewrite E2. cbn [Nat.ltb Nat.leb].
      replace (200 <? 200 + 1) with true by (symmetry; apply Nat.ltb_lt; lia).
      destruct (lastn 200 events); [discriminate E2|reflexivity].
    + apply Nat.eqb_neq in E2.
      replace (200 <? length (lastn 200 events) + 1) with false
        by (symmetry; apply Nat.ltb_ge; lia).
      reflexivity.
Qed.


(** ** The download attempts *)

Section WithEnv.
Context {O : Os} {X : Extractor}.

Lemma ydl_extract_eq (opts : YdlOpts) (url : string) (w : World) :
  ydl_extract opts url w =
  (match snd (extract_info (length (invocations w)) opts url) with
   | inl info => Ok info
   | inr e => Raise e
   end,
   attempt_world w opts url (fst (extract_info (length (invocations w)) opts url))).
Proof.
  unfold ydl_extract, attempt_world.
  destruct (extract_info (length (invocations w)) opts url) as [events r].
  rewrite run_hooks_eq. cbn. destruct r; reflexivity.
Qed.

Lemma attempt_world_length (w : World) opts url events :
  length (invocations (attempt_world w opts url events)) = S (length (invocations w)).
Proof. cbn. rewrite length_app. cbn. lia. Qed.

(** The primary attempt returns: one invocation, no signal yet. *)
Lemma download_primary_ok (opts : YdlOpts) (url : string) (w : World) ev info :
  extract_info (length (invocations w)) opts url = (ev, inl info) ->
  download opts url w = (Ok (Some info), attempt_world w opts url ev).
Proof.
  intros E. unfold download, try_except, bind.
  rewrite ydl_extract_eq, E. reflexivity.
Qed.

(** The primary attempt raises and the retry returns: two invocations. *)
Lemma download_retry_ok (opts : YdlOpts) (url : string) (w : World) ev e ev2 info :
  extract_info (length (invocations w)) opts url = (ev, inr e) ->
  extract_info (S (length (invocations w))) (retry_opts opts) url = (ev2, inl info) ->
  download opts url w =
  (Ok (Some info),
   attempt_world (attempt_world w opts url ev) (retry_opts opts) url ev2).
Proof.
  intros E E2. unfold download, try_except, bind.
  rewrite ydl_extract_eq, E. cbn [fst snd].
  unfold get_debug_messages. rewrite ydl_extract_eq.
  rewrite attempt_world_length, E2. reflexivity.
Qed.

(** Both attempts raise: two invocations, the error report, and the
    [return] of line 242. *)
Lemma download_both_fail (opts : YdlOpts) (url : string) (w : World) ev e ev2 e2 :
  extract_info (length (invocations w)) opts url = (ev, inr e) ->
  extract_info (S (length (invocations w))) (retry_opts opts) url = (ev2, inr e2) ->
  download opts url w =
  (Ok None,
   with_signal
     (attempt_world (attempt_world w opts url ev) (retry_opts opts) url ev2)
     (download_error
        (full_error_text
           (primary_error_text e (feed ev (debug_messages w)))
           e2
           (feed ev2 (feed ev (debug_messages w)))))).
Proof.
  intros E E2. unfold download, try_except, bind.
  rewrite ydl_extract_eq, E. cbn [fst snd].
  unfold get_debug_messages. rewrite ydl_extract_eq.
  rewrite attempt_world_length, E2. reflexivity.
Qed.

(** ** The checks made before the first attempt *)

Lemma check_cookies_ok (w : DownloadWorker) (world : World) :
  cookies_missing w = false ->
  check_cookies w world = (Ok (cookie_entry w), world).
Proof.
  unfold cookies_missing, check_cookies, cookie_entry.
  destruct (truthy (cookies_file w)); cbn; [|reflexivity].
  destruct (path_exists (cookies_file w)); cbn; [reflexivity|discriminate].
Qed.

Lemma check_cookies_missing (w : DownloadWorker) (world : World) :
  cookies_missing w = true ->
  check_cookies w world =
  (Raise {| exn_type := "Exception";
            exn_msg := "Cookies file not found: " ++ cookies_file w |}, world).
Proof.
  unfold cookies_missing, check_cookies.
  destruct (truthy (cookies_file w)); cbn; [|discriminate].
  destruct (path_exists (cookies_file w)); cbn; [discriminate|reflexivity].
Qed.

Lemma ready_true (w : DownloadWorker) :
  ready w = true ->
  cookies_missing w = false
  /\ ffmpeg_available (ffmpeg_path w) = true
  /\ ffprobe_available (ffmpeg_path w) = true.
Proof.
  unfold ready. intros H.
  apply andb_true_iff in H as [H H3]. apply andb_true_iff in H as [H1 H2].
  apply negb_true_iff in H1. auto.
Qed.

Lemma report_eq (w : DownloadWorker) (saved : option string) (world : World) :
  report w saved world =
  (Ok tt,
   with_signal world
     (download_complete
        (match saved with
         | Some p => if truthy p && path_exists p then p else finished_message w
         | None => finished_message w
         end))).
Proof.
  unfold report. destruct saved as [p|]; [|reflexivity].
  destruct (truthy p && path_exists p); reflexivity.
Qed.

(** When every check passes, the run is the download followed by the report;
    the handler of line 270 is not entered. *)
Lemma run_ready (w : DownloadWorker) (world : World) :
  ready w = true ->
  run w world =
  match download (ydl_opts_of w) (video_url w) (start_world world) with
  | (Ok (Some info), world') =>
      report w (resolve_saved_path (output_template w) info) world'
  | (Ok None, world') => (Ok tt, world')
  | (Raise e, world') => emit (download_error (outer_error_text e)) world'
  end.
Proof.
  intros R. destruct (ready_true w R) as (Hc & Hm & Hp).
  unfold run, try_except, bind at 1. rewrite (check_cookies_ok w world Hc).
  unfold bind at 1. unfold set_debug_messages at 1.
  unfold bind at 1. unfold check_tools. rewrite Hm, Hp. cbn [negb].
  unfold ret at 1. unfold bind at 1.
  fold (start_world world). fold (ydl_opts_of w).
  destruct (download (ydl_opts_of w) (video_url w) (start_world world)) as [[[info|]|e] world'].
  - rewrite report_eq. reflexivity.
  - reflexivity.
  - reflexivity.
Qed.

Lemma run_cookies_missing (w : DownloadWorker) (world : World) :
  cookies_missing w = true ->
  run w world =
  (Ok tt,
   with_signal world
     (download_error
        (outer_error_text
           {| exn_type := "Exception";
              exn_msg := "Cookies file not found: " ++ cookies_file w |}))).
Proof.
  intros H. unfold run, try_except, bind at 1.
  rewrite (check_cookies_missing w world H). reflexivity.
Qed.

Lemma run_tools_missing (w : DownloadWorker) (world : World) :
  cookies_missing w = false ->
  ffmpeg_available (ffmpeg_path w) && ffprobe_available (ffmpeg_path w) = false ->
  run w world =
  (Ok tt,
   with_signal (start_world world)
     (download_error
        (outer_error_text
           (if ffmpeg_available (ffmpeg_path w) then ffprobe_missing
            else ffmpeg_missing)))).
Proof.
  intros Hc Ht. unfold run, try_except, bind at 1.
  rewrite (check_cookies_ok w world Hc).
  unfold bind at 1. unfold set_debug_messages at 1.
  unfold bind at 1. unfold check_tools.
  fold (start_world world).
  destruct (ffmpeg_available (ffmpeg_path w)); cbn [negb andb] in *.
  - rewrite Ht. reflexivity.
  - reflexivity.
Qed.

Lemma skipn_length_app {A} (l r : list A) : skipn (length l) (l ++ r) = r.
Proof. induction l as [|a l IH]; cbn; [reflexivity | exact IH]. Qed.

Lemma skipn_length_self {A} (l : list A) : skipn (length l) l = [].
Proof. induction l as [|a l IH]; cbn; [reflexivity | exact IH]. Qed.

(** C4. When a credential file is named and does not exist, or ffmpeg or
    ffprobe is not resolved, the run ends in the error signal, whose text
    names the missing item, and the extractor is not invoked at all. *)
Theorem failed_precondition_makes_no_attempt (w : DownloadWorker) (world : World) :
  cookies_missing w = true
  \/ ffmpeg_available (ffmpeg_path w) = false
  \/ ffprobe_available (ffmpeg_path w) = false ->
  attempts_of w world = []
  /\ invocations (snd (run w world)) = invocations world
  /\ emitted_by w world =
     [download_error
        (outer_error_text
           (if cookies_missing w then
              {| exn_type := "Exception";
                 exn_msg := "Cookies file not found: " ++ cookies_file w |}
            else if ffmpeg_available (ffmpeg_path w) then ffprobe_missing
            else ffmpeg_missing))].
Proof.
  intros H. unfold attempts_of, emitted_by.
  destruct (cookies_missing w) eqn:Hc.
  - rewrite (run_cookies_missing w world Hc). cbn [snd with_signal invocations signals].
    rewrite skipn_length_self, skipn_length_app. auto.
  - assert (Ht : ffmpeg_available (ffmpeg_path w)
                 && ffprobe_available (ffmpeg_path w) = false).
    { destruct H as [H|[H|H]]; [discriminate H| |]; rewrite H;
        [reflexivity | apply andb_false_r]. }
    rewrite (run_tools_missing w world Hc Ht).
    cbn [snd with_signal start_world invocations signals].
    rewrite skipn_length_self, skipn_length_app. auto.
Qed.

(** The run of a ready job, by the results of the two possible attempts. *)
Lemma run_primary_ok (w : DownloadWorker) (world : World) ev info :
  ready w = true ->
  extract_info (length (invocations world)) (ydl_opts_of w) (video_url w) = (ev, inl info) ->
  run w world =
  report w (resolve_saved_path (output_template w) info)
    (attempt_world (start_world world) (ydl_opts_of w) (video_url w) ev).
Proof.
  intros R E. rewrite (run_ready w world R).
  rewrite (download_primary_ok _ _ (start_world world) ev info E). reflexivity.
Qed.

Lemma run_retry_ok (w : DownloadWorker) (world : World) ev e ev2 info :
  ready w = true ->
  extract_info (length (invocations world)) (ydl_opts_of w) (video_url w) = (ev, inr e) ->
  extract_info (S (length (invocations world))) (retry_opts (ydl_opts_of w)) (video_url w)
    = (ev2, inl info) ->
  run w world =
  report w (resolve_saved_path (output_template w) info)
    (attempt_world
       (attempt_world (start_world world) (ydl_opts_of w) (video_url w) ev)
       (retry_opts (ydl_opts_of w)) (video_url w) ev2).
Proof.
  intros R E E2. rewrite (run_ready w world R).
  rewrite (download_retry_ok _ _ (start_world world) ev e ev2 info E E2). reflexivity.
Qed.

Lemma run_both_fail (w : DownloadWorker) (world : World) ev e ev2 e2 :
  ready w = true ->
  extract_info (length (invocations world)) (ydl_opts_of w) (video_url w) = (ev, inr e) ->
  extract_info (S (length (invocations world))) (retry_opts (ydl_opts_of w)) (video_url w)
    = (ev2, inr e2) ->
  run w world =
  (Ok tt,
   with_signal
     (attempt_world
        (attempt_world (start_world world) (ydl_opts_of w) (video_url w) ev)
        (retry_opts (ydl_opts_of w)) (video_url w) ev2)
     (download_error
        (full_error_text (primary_error_text e (feed ev [])) e2
           (feed ev2 (feed ev []))))).
Proof.
  intros R E E2. rewrite (run_ready w world R).
  rewrite (download_both_fail _ _ (start_world world) ev e ev2 e2 E E2). reflexivity.
Qed.

(** C1. In a run that reaches the download: when the primary attempt
    returns, the extractor is invoked once, with the primary options, and a
    completion is signalled; when it raises, the extractor is invoked exactly
    once more, with the same options except [format = 'best'], and only if
    that retry raises as well is the error signalled, with no third
    invocation. *)
Theorem retry_exactly_once (w : DownloadWorker) (world : World) :
  ready w = true ->
  let opts := ydl_opts_of w in
  let url := video_url w in
  let n := length (invocations world) in
  format opts = "bestvideo+bestaudio/best"
  /\ match snd (extract_info n opts url) with
     | inl _ =>
         attempts_of w world = [(opts, url)]
         /\ exists p, emitted_by w world = [download_complete p]
     | inr e =>
         attempts_of w world = [(opts, url); (retry_opts opts, url)]
         /\ format (retry_opts opts) = "best"
         /\ match snd (extract_info (S n) (retry_opts opts) url) with
            | inl _ => exists p, emitted_by w world = [download_complete p]
            | inr e2 => exists report, emitted_by w world = [download_error report]
            end
     end.
Proof.
  intros R. cbv zeta. split; [reflexivity|].
  unfold attempts_of, emitted_by.
  destruct (extract_info (length (invocations world)) (ydl_opts_of w) (video_url w))
    as [ev [info|e]] eqn:E; cbn [snd].
  - rewrite (run_primary_ok w world ev info R E), report_eq.
    cbn [snd with_signal attempt_world start_world invocations signals].
    rewrite !skipn_length_app. eauto.
  - split; [|split; [reflexivity|]].
    + destruct (extract_info (S (length (invocations world)))
                  (retry_opts (ydl_opts_of w)) (video_url w))
        as [ev2 [info|e2]] eqn:E2.
      * rewrite (run_retry_ok w world ev e ev2 info R E E2), report_eq.
        cbn [snd with_signal attempt_world start_world invocations signals].
        rewrite <- app_assoc, skipn_length_app. reflexivity.
      * rewrite (run_both_fail w world ev e ev2 e2 R E E2).
        cbn [snd with_signal attempt_world start_world invocations signals].
        rewrite <- app_assoc, skipn_length_app. reflexivity.
    + destruct (extract_info (S (length (invocations world)))
                  (retry_opts (ydl_opts_of w)) (video_url w))
        as [ev2 [info|e2]] eqn:E2; cbn [snd].
      * rewrite (run_retry_ok w world ev e ev2 info R E E2), report_eq.
        cbn [snd with_signal attempt_world start_world invocations signals].
        rewrite skipn_length_app. eauto.
      * rewrite (run_both_fail w world ev e ev2 e2 R E E2).
        cbn [snd with_signal attempt_world start_world invocations signals].
        rewrite skipn_length_app. eauto.
Qed.

(** ** Resolving the saved path *)

Lemma first_truthy_is_truthy (l : list (option string)) (p : string) :
  first_truthy l = Some p -> truthy p = true.
Proof.
  induction l as [|c l IH]; cbn; [discriminate|].
  destruct (truthy_opt c) eqn:E; [|exact IH].
  intros ->. exact E.
Qed.

Ltac case_truthy :=
  repeat (cbn [truthy_opt negb first_truthy];
          match goal with
          | H : truthy ?x = _ |- context [truthy ?x] => rewrite H
          | |- context [truthy ?x] => is_var x; destruct (truthy x) eqn:?
          end);
  cbn [truthy_opt negb first_truthy].

(** The selection of lines 253-259 on three candidates, the third being
    consulted only when the first two are empty. *)
Lemma select_is_first_truthy (a b c rebuilt : option string) :
  let saved := if negb (truthy_opt a) then py_or b c else a in
  let r :=
    if negb (truthy_opt saved) then
      match rebuilt with
      | Some p => Some p
      | None => saved
      end
    else saved in
  first_truthy [a; py_or b c; rebuilt] = if truthy_opt r then r else None.
Proof.
  cbv zeta. unfold py_or.
  destruct rebuilt as [p|]; destruct a as [a|]; destruct b as [b|];
    destruct c as [c|]; case_truthy; reflexivity.
Qed.

(** The path kept by lines 245-263, when it is a non-empty string, is the
    first non-empty candidate; otherwise no candidate is non-empty. *)
Lemma resolve_is_first_truthy (template : string) (d : InfoDict) :
  let r := resolve_saved_path template (Some d) in
  first_truthy (path_candidates template d) = if truthy_opt r then r else None.
Proof.
  cbv zeta. unfold resolve_saved_path, path_candidates.
  destruct (requested_downloads d) as [[|[entry|] rest]|];
    apply select_is_first_truthy.
Qed.

Lemma report_resolved (w : DownloadWorker) (info : Info) (world : World) :
  report w (resolve_saved_path (output_template w) info) world =
  (Ok tt, with_signal world (expected_completion w info)).
Proof.
  rewrite report_eq. f_equal. f_equal. unfold expected_completion.
  destruct info as [d|]; [|reflexivity].
  pose proof (resolve_is_first_truthy (output_template w) d) as H. cbv zeta in H.
  rewrite H.
  destruct (resolve_saved_path (output_template w) (Some d)) as [p|];
    cbn [truthy_opt]; [|reflexivity].
  destruct (truthy p); cbn [andb]; [|reflexivity].
  destruct (path_exists p); reflexivity.
Qed.

(** C5. After an attempt that returned (the primary one, or the retry after
    a primary failure), the run emits one signal: the completion signal
    carrying the first non-empty candidate among the first requested
    download's [filepath], the [_filename]/[filename] field and the name
    rebuilt from the template, when that path exists; the completion signal
    carrying the "Download finished" message otherwise.  It is never the
    error signal. *)
Theorem saved_path_resolution (w : DownloadWorker) (world : World) (info : Info) :
  ready w = true ->
  let opts := ydl_opts_of w in
  let url := video_url w in
  let n := length (invocations world) in
  snd (extract_info n opts url) = inl info
  \/ ((exists e, snd (extract_info n opts url) = inr e)
      /\ snd (extract_info (S n) (retry_opts opts) url) = inl info) ->
  emitted_by w world = [expected_completion w info]
  /\ (forall report, expected_completion w info <> download_error report)
  /\ (expected_completion w info = download_complete (finished_message w)
      \/ exists p, expected_completion w info = download_complete p
                   /\ truthy p = true /\ path_exists p = true
                   /\ exists d, info = Some d
                        /\ first_truthy (path_candidates (output_template w) d) = Some p).
Proof.
  intros R. cbv zeta. intros H. split; [|split].
  - unfold emitted_by. destruct H as [H|[[e H] H2]].
    + destruct (extract_info (length (invocations world)) (ydl_opts_of w) (video_url w))
        as [ev r] eqn:E. cbn [snd] in H. subst r.
      rewrite (run_primary_ok w world ev info R E), report_resolved.
      cbn [snd with_signal attempt_world start_world invocations signals].
      apply skipn_length_app.
    + destruct (extract_info (length (invocations world)) (ydl_opts_of w) (video_url w))
        as [ev r] eqn:E. cbn [snd] in H. subst r.
      destruct (extract_info (S (length (invocations world)))
                  (retry_opts (ydl_opts_of w)) (video_url w)) as [ev2 r2] eqn:E2.
      cbn [snd] in H2. subst r2.
      rewrite (run_retry_ok w world ev e ev2 info R E E2), report_resolved.
      cbn [snd with_signal attempt_world start_world invocations signals].
      apply skipn_length_app.
  - intros report. unfold expected_completion.
    destruct info as [d|]; [|discriminate].
    destruct (first_truthy _) as [p|]; [|discriminate].
    destruct (path_exists p); discriminate.
  - unfold expected_completion. destruct info as [d|]; [|now left].
    destruct (first_truthy _) as [p|] eqn:F; [|now left].
    destruct (path_exists p) eqn:Ex; [|now left].
    right. exists p. repeat split; auto.
    + eapply first_truthy_is_truthy; eauto.
    + exists d. auto.
Qed.

(** ** What every attempt is given *)

Lemma not_ready_cases (w : DownloadWorker) :
  ready w = false ->
  cookies_missing w = true
  \/ (cookies_missing w = false
      /\ ffmpeg_available (ffmpeg_path w) && ffprobe_available (ffmpeg_path w) = false).
Proof.
  unfold ready. destruct (cookies_missing w); cbn [negb andb]; [now left|].
  intros H. right. split; [reflexivity|].
  destruct (ffmpeg_available (ffmpeg_path w)); cbn [andb] in *; [exact H|reflexivity].
Qed.

Lemma attempts_not_ready (w : DownloadWorker) (world : World) :
  ready w = false -> attempts_of w world = [].
Proof.
  intros H. unfold attempts_of.
  destruct (not_ready_cases w H) as [Hc|[Hc Ht]].
  - rewrite (run_cookies_missing w world Hc). apply skipn_length_self.
  - rewrite (run_tools_missing w world Hc Ht). apply skipn_length_self.
Qed.

Lemma attempts_ready (w : DownloadWorker) (world : World) :
  ready w = true ->
  attempts_of w world =
  (ydl_opts_of w, video_url w)
  :: match snd (extract_info (length (invocations world)) (ydl_opts_of w) (video_url w)) with
     | inl _ => []
     | inr _ => [(retry_opts (ydl_opts_of w), video_url w)]
     end.
Proof.
  intros R. unfold attempts_of.
  destruct (extract_info (length (invocations world)) (ydl_opts_of w) (video_url w))
    as [ev [info|e]] eqn:E; cbn [snd].
  - rewrite (run_primary_ok w world ev info R E), report_eq.
    apply skipn_length_app.
  - destruct (extract_info (S (length (invocations world)))
                (retry_opts (ydl_opts_of w)) (video_url w))
      as [ev2 [info|e2]] eqn:E2.
    + rewrite (run_retry_ok w world ev e ev2 info R E E2), report_eq.
      cbn [snd with_signal attempt_world start_world invocations].
      rewrite <- app_assoc. apply skipn_length_app.
    + rewrite (run_both_fail w world ev e ev2 e2 R E E2).
      cbn [snd with_signal attempt_world start_world invocations].
      rewrite <- app_assoc. apply skipn_length_app.
Qed.

(** At the end of a run that reached the download, the buffer holds the last
    200 progress events of its attempts taken together. *)
Lemma run_buffer_bounded (w : DownloadWorker) (world : World) :
  ready w = true ->
  exists events,
    debug_messages (snd (run w world)) = lastn 200 events
    /\ length (debug_messages (snd (run w world))) <= 200.
Proof.
  intros R.
  assert (B : forall events,
             feed events [] = lastn 200 events /\ length (feed events []) <= 200).
  { intros events. rewrite feed_lastn by (cbn; lia). cbn [app].
    split; [reflexivity|]. rewrite lastn_length. lia. }
  destruct (extract_info (length (invocations world)) (ydl_opts_of w) (video_url w))
    as [ev [info|e]] eqn:E.
  - exists ev. rewrite (run_primary_ok w world ev info R E), report_eq.
    cbn [snd with_signal attempt_world start_world debug_messages]. apply B.
  - destruct (extract_info (S (length (invocations world)))
                (retry_opts (ydl_opts_of w)) (video_url w))
      as [ev2 [info|e2]] eqn:E2; exists (ev ++ ev2).
    + rewrite (run_retry_ok w world ev e ev2 info R E E2), report_eq.
      cbn [snd with_signal attempt_world start_world debug_messages].
      rewrite <- feed_app. apply B.
    + rewrite (run_both_fail w world ev e ev2 e2 R E E2).
      cbn [snd with_signal attempt_world start_world debug_messages].
      rewrite <- feed_app. apply B.
Qed.

(** A run invokes the extractor with the primary options first and, if at
    all a second time, with the retry options; always on the job's URL. *)
Lemma attempt_options (w : DownloadWorker) (world : World) (o : YdlOpts) (u : string) :
  In (o, u) (attempts_of w world) ->
  u = video_url w /\ (o = ydl_opts_of w \/ o = retry_opts (ydl_opts_of w)).
Proof.
  destruct (ready w) eqn:R.
  - rewrite (attempts_ready w world R).
    destruct (snd (extract_info _ _ _)); cbn [In];
      intros H; repeat destruct H as [H|H]; try contradiction;
      inversion H; subst; auto.
  - rewrite (attempts_not_ready w world R). intros [].
Qed.

Lemma first_attempt_options (w : DownloadWorker) (world : World) (o : YdlOpts) (u : string) :
  nth_error (attempts_of w world) 0 = Some (o, u) -> o = ydl_opts_of w.
Proof.
  destruct (ready w) eqn:R.
  - rewrite (attempts_ready w world R). cbn. intros H. inversion H. reflexivity.
  - rewrite (attempts_not_ready w world R). discriminate.
Qed.

(** C2 (as amended). The first extractor invocation of a run is given the
    selector [bestvideo+bestaudio/best]: its first alternative merges the
    best video and the best audio stream, and its second alternative is the
    single stream [best]; every invocation of the run, the retry included,
    has [noplaylist] set and is made on the job's URL. *)
Theorem primary_selector_and_noplaylist (w : DownloadWorker) (world : World) :
  (forall o u,
      nth_error (attempts_of w world) 0 = Some (o, u) ->
      format o = "bestvideo+bestaudio/best"
      /\ selector_alternatives (format o) = ["bestvideo+bestaudio"; "best"]
      /\ map merged_streams (selector_alternatives (format o))
         = [["bestvideo"; "bestaudio"]; ["best"]])
  /\ (forall o u,
      In (o, u) (attempts_of w world) ->
      noplaylist o = true /\ u = video_url w).
Proof.
  split.
  - intros o u H. rewrite (first_attempt_options w world o u H).
    repeat split; reflexivity.
  - intros o u H. destruct (attempt_options w world o u H) as [-> [-> | ->]];
      split; reflexivity.
Qed.

(** C8 (as amended). The Referer header [https://www.instagram.com/] is put
    in the options exactly when the lower-cased URL text contains
    [instagram.com], wherever in the URL that is; the header, or its
    absence, is the same in every extractor invocation of the run. *)
Theorem referer_follows_url_text (w : DownloadWorker) (world : World) :
  forall o u,
    In (o, u) (attempts_of w world) ->
    http_headers o =
    if str_in "instagram.com" (lower (video_url w))
    then Some [("Referer", "https://www.instagram.com/")]
    else None.
Proof.
  intros o u H. destruct (attempt_options w world o u H) as [_ [-> | ->]];
    reflexivity.
Qed.

(** ** The output file name *)

Lemma char_in_app (c : ascii) (a b : string) :
  char_in c (a ++ b) = char_in c a || char_in c b.
Proof.
  induction a as [|d a IH]; cbn; [reflexivity|].
  rewrite IH. apply orb_assoc.
Qed.

Lemma re_sub_reserved_clean (s : string) (c : ascii) :
  char_in c (re_sub_reserved s) = true -> reserved_char c = false.
Proof.
  induction s as [|d s IH]; cbn; [discriminate|].
  intros H. apply orb_true_iff in H as [H|H]; [|exact (IH H)].
  apply Ascii.eqb_eq in H. subst c.
  destruct (reserved_char d) eqn:E; [reflexivity|exact E].
Qed.

Lemma re_sub_reserved_length (s : string) :
  String.length (re_sub_reserved s) = String.length s.
Proof. induction s as [|d s IH]; cbn; [reflexivity | now rewrite IH]. Qed.

Lemma placeholder_suffix_clean (c : ascii) :
  char_in c ".%(ext)s" = true -> reserved_char c = false.
Proof.
  cbn. intros H.
  repeat (apply orb_true_iff in H as [H|H];
          [apply Ascii.eqb_eq in H; subst c; reflexivity|]).
  discriminate H.
Qed.

(** C6 (as amended). With an explicit file name, the output name is the base
    name of that name stripped of surrounding white space, each disallowed
    character replaced by an underscore (so the length is kept and no
    disallowed character remains), followed by [.%(ext)s] when neither that
    result nor the template contains [%(ext)s]; without an explicit name it
    is the template; the output template handed to every extractor
    invocation is [os.path.join(directory, name)]. *)
Theorem output_name_is_sanitized (w : DownloadWorker) (world : World) :
  (truthy (manual_filename w) = true ->
     let name := re_sub_reserved (basename (strip (manual_filename w))) in
     output_filename w =
       (if negb (str_in "%(ext)s" name) && negb (str_in "%(ext)s" (filename_template w))
        then name ++ ".%(ext)s" else name)%string
     /\ String.length name = String.length (basename (strip (manual_filename w)))
     /\ forall c, char_in c (output_filename w) = true -> reserved_char c = false)
  /\ (truthy (manual_filename w) = false -> output_filename w = filename_template w)
  /\ (forall o u,
        In (o, u) (attempts_of w world) ->
        outtmpl o = path_join (directory w) (output_filename w)).
Proof.
  split; [|split].
  - intros H. cbv zeta. unfold output_filename. rewrite H.
    split; [reflexivity|]. split; [apply re_sub_reserved_length|].
    intros c. unfold ext_placeholder.
    destruct (negb (str_in "%(ext)s" _) && _).
    + rewrite char_in_app. intros Hc. apply orb_true_iff in Hc as [Hc|Hc].
      * eapply re_sub_reserved_clean; eauto.
      * apply placeholder_suffix_clean; exact Hc.
    + apply re_sub_reserved_clean.
  - intros H. unfold output_filename. rewrite H. reflexivity.
  - intros o u H. destruct (attempt_options w world o u H) as [_ [-> | ->]];
      reflexivity.
Qed.

End WithEnv.
End WorkerFacts.

(* ===================================================================== *)
(** * The properties on concrete runs *)
(* ===================================================================== *)

Module Runs.
Import ToolAvailability Worker Outcome Examples WorkerFacts.

Lemma retry_exactly_once_witness :
  @ready os_full (job "https://youtu.be/x" "") = true
  /\ format (@ydl_opts_of os_full (job "https://youtu.be/x" ""))
     = "bestvideo+bestaudio/best"
  /\ @attempts_of os_full both_fail (job "https://youtu.be/x" "") empty_world
     = [(@ydl_opts_of os_full (job "https://youtu.be/x" ""), "https://youtu.be/x");
        (retry_opts (@ydl_opts_of os_full (job "https://youtu.be/x" "")),
         "https://youtu.be/x")]
  /\ format (retry_opts (@ydl_opts_of os_full (job "https://youtu.be/x" ""))) = "best"
  /\ exists report,
       @emitted_by os_full both_fail (job "https://youtu.be/x" "") empty_world
       = [download_error report].
Proof.
  split; [reflexivity|].
  exact (@retry_exactly_once os_full both_fail (job "https://youtu.be/x" "")
           empty_world eq_refl).
Defined.

Example retry_success_is_not_a_failure :
  @emitted_by os_full retry_works (job "https://youtu.be/x" "") empty_world
  = [download_complete "/home/u/Downloads/clip.mp4"].
Proof. vm_compute. reflexivity. Qed.

Lemma failed_precondition_makes_no_attempt_witness :
  @cookies_missing os_full
     (job_with_cookies "https://youtu.be/x" "/home/u/cookies.txt") = true
  /\ @attempts_of os_full first_works
       (job_with_cookies "https://youtu.be/x" "/home/u/cookies.txt") empty_world = []
  /\ invocations
       (snd (@run os_full first_works
               (job_with_cookies "https://youtu.be/x" "/home/u/cookies.txt")
               empty_world)) = []
  /\ @emitted_by os_full first_works
       (job_with_cookies "https://youtu.be/x" "/home/u/cookies.txt") empty_world
     = [download_error
          (@outer_error_text first_works
             {| exn_type := "Exception";
                exn_msg := "Cookies file not found: /home/u/cookies.txt" |})].
Proof.
  split; [reflexivity|].
  exact (@failed_precondition_makes_no_attempt os_full first_works
           (job_with_cookies "https://youtu.be/x" "/home/u/cookies.txt")
           empty_world (or_introl eq_refl)).
Defined.

Example missing_ffprobe_makes_no_attempt :
  @run (Posix.os fs_ffmpeg_only) first_works (job "https://youtu.be/x" "") empty_world
  = (Ok tt,
     {| invocations := [];
        debug_messages := [];
        signals := [download_error (@outer_error_text first_works ffprobe_missing)] |}).
Proof. vm_compute. reflexivity. Qed.

Lemma saved_path_resolution_witness :
  @ready os_full (job "https://youtu.be/x" "") = true
  /\ @emitted_by os_full first_works (job "https://youtu.be/x" "") empty_world
     = [download_complete "/home/u/Downloads/clip.mp4"].
Proof.
  split; [reflexivity|].
  exact (proj1 (@saved_path_resolution os_full first_works
                  (job "https://youtu.be/x" "") empty_world
                  (Some {| requested_downloads :=
                             Some [Some {| filepath := Some "/home/u/Downloads/clip.mp4" |}];
                           _filename := None;
                           filename := None |})
                  eq_refl (or_introl eq_refl))).
Defined.

(** C2 (as stated) fails: the selector given to the primary attempt is not
    the merge alone; its alternatives end with [best], a single stream, the
    very selector of the retry. *)
Lemma primary_selector_keeps_single_stream_alternative :
  map (fun ou => selector_alternatives (format (fst ou)))
      (@attempts_of os_full first_works (job "https://youtu.be/x" "") empty_world)
  = [["bestvideo+bestaudio"; "best"]]
  /\ retry_format = "best"
  /\ single_stream "best" = true
  /\ forallb (fun a => negb (single_stream a))
       (selector_alternatives
          (format (@ydl_opts_of os_full (job "https://youtu.be/x" "")))) = false.
Proof. repeat split; vm_compute; reflexivity. Qed.

Lemma primary_selector_and_noplaylist_witness :
  nth_error (@attempts_of os_full both_fail (job "https://youtu.be/x" "") empty_world) 0
  = Some (@ydl_opts_of os_full (job "https://youtu.be/x" ""), "https://youtu.be/x")
  /\ format (@ydl_opts_of os_full (job "https://youtu.be/x" ""))
     = "bestvideo+bestaudio/best"
  /\ noplaylist (retry_opts (@ydl_opts_of os_full (job "https://youtu.be/x" ""))) = true.
Proof.
  split; [reflexivity|]. split.
  - apply (proj1 (@primary_selector_and_noplaylist os_full both_fail
                    (job "https://youtu.be/x" "") empty_world)
             _ "https://youtu.be/x").
    reflexivity.
  - apply (proj2 (@primary_selector_and_noplaylist os_full both_fail
                    (job "https://youtu.be/x" "") empty_world)
             _ "https://youtu.be/x").
    vm_compute. right. left. reflexivity.
Defined.

(** C6 (as stated) fails: a disallowed character is not removed from the
    explicit name but replaced by an underscore. *)
Lemma disallowed_character_becomes_underscore :
  @output_filename os_full (job "https://youtu.be/x" "a:b") = "a_b"
  /\ @effective_name_spec os_full (job "https://youtu.be/x" "a:b") = "ab".
Proof. split; vm_compute; reflexivity. Qed.

Lemma output_name_is_sanitized_witness :
  truthy (manual_filename (job "https://youtu.be/x" " sub/a:b ")) = true
  /\ @output_filename os_full (job "https://youtu.be/x" " sub/a:b ") = "a_b"
  /\ reserved_char "_" = false.
Proof.
  split; [reflexivity|]. split; [reflexivity|].
  apply (proj2 (proj2 (proj1 (@output_name_is_sanitized os_full first_works
                                (job "https://youtu.be/x" " sub/a:b ") empty_world)
                         eq_refl))).
  reflexivity.
Defined.

(** C8 (as stated) fails: the host is [example.com], which does not contain
    [instagram.com], yet the Referer header is set, because the query string
    of the URL mentions the domain. *)
Lemma referer_set_for_another_host :
  @SiteMatcher.parsed_host cpython_urllib (Some "https://example.com/?q=instagram.com")
  = Some "example.com"
  /\ str_in "instagram.com" "example.com" = false
  /\ map (fun ou => http_headers (fst ou))
       (@attempts_of os_full first_works
          (job "https://example.com/?q=instagram.com" "") empty_world)
     = [Some [("Referer", "https://www.instagram.com/")]].
Proof. repeat split; vm_compute; reflexivity. Qed.

Lemma referer_follows_url_text_witness :
  In (@ydl_opts_of os_full (job "https://www.Instagram.com/reel/1" ""),
      "https://www.Instagram.com/reel/1")
     (@attempts_of os_full first_works
        (job "https://www.Instagram.com/reel/1" "") empty_world)
  /\ http_headers (@ydl_opts_of os_full (job "https://www.Instagram.com/reel/1" ""))
     = Some [("Referer", "https://www.instagram.com/")].
Proof.
  assert (H : In (@ydl_opts_of os_full (job "https://www.Instagram.com/reel/1" ""),
                  "https://www.Instagram.com/reel/1")
                 (@attempts_of os_full first_works
                    (job "https://www.Instagram.com/reel/1" "") empty_world)).
  { left. reflexivity. }
  split; [exact H|].
  exact (@referer_follows_url_text os_full first_works
           (job "https://www.Instagram.com/reel/1" "") empty_world _ _ H).
Defined.

End Runs.

(* ===================================================================== *)
(** * Further properties: the matcher, the button handler, the tools *)
(* ===================================================================== *)

Module StrFacts.

Lemma startswith_iff (s p : string) :
  startswith s p = true <-> exists r, s = (p ++ r)%string.
Proof.
  revert s. induction p as [|a p IH]; intros s; cbn.
  - split; [intros _; exists s; reflexivity | reflexivity].
  - destruct s as [|b s]; [split; [discriminate | intros [r H]; discriminate H]|].
    rewrite andb_true_iff, IH. split.
    + intros [E [r ->]]. apply Ascii.eqb_eq in E. subst b. exists r. reflexivity.
    + intros [r H]. inversion H. subst. split; [apply Ascii.eqb_refl|].
      exists r. reflexivity.
Qed.

Lemma append_assoc (a b c : string) : ((a ++ b) ++ c = a ++ (b ++ c))%string.
Proof. induction a as [|x a IH]; cbn; [reflexivity | now rewrite IH]. Qed.

(** [sub in s] holds exactly when [s] is some text, then [sub], then some
    text. *)
Lemma str_in_iff (sub s : string) :
  str_in sub s = true <-> exists pre post, s = (pre ++ sub ++ post)%string.
Proof.
  induction s as [|c s IH].
  - cbn [str_in]. rewrite orb_false_r, startswith_iff. split.
    + intros [r H]. exists EmptyString, r. exact H.
    + intros [pre [post H]]. destruct pre as [|x pre]; [|discriminate H].
      exists post. exact H.
  - cbn [str_in]. rewrite orb_true_iff, startswith_iff, IH. split.
    + intros [[r H] | [pre [post H]]].
      * exists EmptyString, r. exact H.
      * exists (String c pre), post. cbn. now rewrite H.
    + intros [pre [post H]]. destruct pre as [|x pre].
      * left. exists post. exact H.
      * right. inversion H. exists pre, post. reflexivity.
Qed.

Lemma str_in_trans (a b c : string) :
  str_in a b = true -> str_in b c = true -> str_in a c = true.
Proof.
  rewrite !str_in_iff. intros [p1 [q1 ->]] [p2 [q2 ->]].
  exists (p2 ++ p1)%string, (q1 ++ q2)%string.
  now rewrite !append_assoc.
Qed.

Lemma str_in_middle (pre sub post : string) :
  str_in sub (pre ++ sub ++ post) = true.
Proof. apply str_in_iff. exists pre, post. reflexivity. Qed.

Lemma str_in_refl (s : string) : str_in s s = true.
Proof.
  apply str_in_iff. exists EmptyString, EmptyString. cbn.
  induction s as [|c s IH]; cbn; [reflexivity | now rewrite <- IH].
Qed.

Lemma str_in_app_l (sub a b : string) :
  str_in sub a = true -> str_in sub (a ++ b) = true.
Proof.
  rewrite !str_in_iff. intros [p [q ->]]. exists p, (q ++ b)%string.
  now rewrite !append_assoc.
Qed.

Lemma str_in_app_r (sub a b : string) :
  str_in sub b = true -> str_in sub (a ++ b) = true.
Proof.
  rewrite !str_in_iff. intros [p [q ->]]. exists (a ++ p)%string, q.
  now rewrite !append_assoc.
Qed.

End StrFacts.

Module GateFacts.
Import SiteMatcher SiteMatcherFacts.
Section WithUrlLib.
Context {U : UrlLib}.

(** X1. Whatever the allow-list holds and whatever [urlparse] does,
    [is_supported_url] answers true for every URL that is present and not
    empty, and false otherwise: the allow-list never turns a URL down. *)
Theorem is_supported_url_is_presence (url : option string) (sites : list string) :
  is_supported_url url sites = truthy_opt url.
Proof.
  destruct url as [u|]; [|reflexivity].
  cbn [truthy_opt]. destruct (truthy u) eqn:Hu.
  - apply is_supported_url_nonempty. exact Hu.
  - unfold is_supported_url. rewrite Hu. reflexivity.
Qed.

(** X2. The Download button either warns about a blank URL, or disables
    itself and starts one worker on the stripped URL, the stripped file name
    and the settings of the hub.  The "Unknown site" question is never
    shown, so the answer to it has no influence. *)
Theorem on_download_clicked_never_asks (h : Hub.MainHub) (choice_yes : bool) :
  Hub.on_download_clicked h choice_yes =
    (if truthy (strip (Hub.url_input h))
     then Hub.start_worker h (strip (Hub.url_input h)) (strip (Hub.filename_input h))
     else [Hub.warning "Warning" "Please paste a URL to download."])
  /\ (forall title text,
        ~ In (Hub.question title text) (Hub.on_download_clicked h choice_yes))
  /\ Hub.on_download_clicked h choice_yes
     = Hub.on_download_clicked h (negb choice_yes).
Proof.
  assert (E : forall c,
             Hub.on_download_clicked h c =
             if truthy (strip (Hub.url_input h))
             then Hub.start_worker h (strip (Hub.url_input h))
                    (strip (Hub.filename_input h))
             else [Hub.warning "Warning" "Please paste a URL to download."]).
  { intros c. unfold Hub.on_download_clicked.
    destruct (truthy (strip (Hub.url_input h))) eqn:Hu; cbn [negb]; [|reflexivity].
    rewrite (is_supported_url_nonempty _ _ Hu). reflexivity. }
  split; [apply E|]. split.
  - intros title text. rewrite E.
    destruct (truthy (strip (Hub.url_input h))); cbn;
      intros H; repeat destruct H as [H|H]; try discriminate H; exact H.
  - now rewrite !E.
Qed.

End WithUrlLib.

Lemma on_download_clicked_example :
  @Hub.on_download_clicked cpython_urllib
     (MoreExamples.hub "  example.org/x " " n ") false
  = [Hub.setEnabled false; Hub.setText "Downloading...";
     Hub.start (Examples.job "example.org/x" "n")].
Proof. vm_compute. reflexivity. Qed.

End GateFacts.

Module ToolFacts.
Import ToolAvailability ToolAvailabilityFacts Worker.
Section WithOs.
Context {O : Os}.

(** X3. The two helpers treat the search path differently.  ffprobe on the
    search path is enough for [ffprobe_available], whatever path is
    configured.  For [ffmpeg_available], when the configured path is a
    directory (and not an executable file), the answer is whether that
    directory holds an executable ffmpeg; the search path is not looked at. *)
Theorem search_path_fallback (p : string) :
  (on_search_path "ffprobe" = true -> ffprobe_available p = true)
  /\ (explicit_path p = true ->
      executable_file (strip p) = false ->
      isdir (strip p) = true ->
      ffmpeg_available p = executable_file (candidate_in (strip p) "ffmpeg")).
Proof.
  split.
  - intros H. rewrite ffprobe_available_eq, H. apply orb_true_r.
  - intros He Hx Hd. unfold ffmpeg_available. rewrite He, Hx, Hd.
    destruct (executable_file (candidate_in (strip p) "ffmpeg")); reflexivity.
Qed.

(** X4. When ffprobe was found through the configured path only (it is
    not on the search path) and that path has no surrounding white space,
    the [ffmpeg_location] option names the directory in which ffprobe was
    found; the option is left out only when that directory is the empty
    relative one. *)
Theorem probe_found_where_extractor_is_told (w : DownloadWorker) (cookie : option string) :
  explicit_path (ffmpeg_path w) = true ->
  strip (ffmpeg_path w) = ffmpeg_path w ->
  isfile (ffmpeg_path w) && isdir (ffmpeg_path w) = false ->
  on_search_path "ffprobe" = false ->
  ffprobe_available (ffmpeg_path w) = true ->
  exists d,
    executable_file (candidate_in d "ffprobe") = true
    /\ ffmpeg_location (primary_opts w cookie) = if truthy d then Some d else None.
Proof.
  intros He Hs Hfd Hp Ha.
  rewrite ffprobe_available_eq, He, Hs, Hp in Ha.
  rewrite orb_false_r in Ha. cbn [andb] in Ha.
  unfold primary_opts. cbn [ffmpeg_location].
  unfold find_ffmpeg_location. rewrite He.
  destruct (isfile (ffmpeg_path w)) eqn:Hf; cbn [andb orb] in Ha, Hfd.
  - rewrite Hfd in Ha. cbn [andb] in Ha. rewrite orb_false_r in Ha.
    exists (dirname (ffmpeg_path w)). split; [exact Ha|]. reflexivity.
  - destruct (isdir (ffmpeg_path w)) eqn:Hd; cbn [andb] in Ha; [|discriminate Ha].
    exists (ffmpeg_path w). split; [exact Ha|]. cbn [truthy_opt].
    unfold explicit_path in He.
    apply andb_true_iff in He as [He _]. apply andb_true_iff in He as [He _].
    rewrite He. reflexivity.
Qed.

End WithOs.

Lemma search_path_fallback_witness :
  @on_search_path (Posix.os Examples.fs_on_path) "ffprobe" = true
  /\ @ffprobe_available (Posix.os Examples.fs_on_path) "/opt/empty" = true
  /\ @ffmpeg_available (Posix.os Examples.fs_on_path) "/opt/empty" = false.
Proof.
  split; [reflexivity|]. split.
  - exact (proj1 (@search_path_fallback (Posix.os Examples.fs_on_path) "/opt/empty")
             eq_refl).
  - exact (proj2 (@search_path_fallback (Posix.os Examples.fs_on_path) "/opt/empty")
             eq_refl eq_refl eq_refl).
Defined.

Lemma probe_found_where_extractor_is_told_witness :
  @ffprobe_available Examples.os_full "/opt/ff/ffmpeg" = true
  /\ exists d,
       @executable_file Examples.os_full (@candidate_in Examples.os_full d "ffprobe") = true
       /\ ffmpeg_location
            (@primary_opts Examples.os_full (MoreExamples.job_at "/opt/ff/ffmpeg") None)
          = if truthy d then Some d else None.
Proof.
  split; [reflexivity|].
  exact (@probe_found_where_extractor_is_told Examples.os_full
           (MoreExamples.job_at "/opt/ff/ffmpeg") None
           eq_refl eq_refl eq_refl eq_refl eq_refl).
Defined.

End ToolFacts.

(* ===================================================================== *)
(** * Further properties of DownloadWorker.run *)
(* ===================================================================== *)

Module RunFacts.
Import ToolAvailability Worker Outcome WorkerFacts StrFacts.

Lemma lastn_lastn {A} (n m : nat) (l : list A) :
  n <= m -> lastn n (lastn m l) = lastn n l.
Proof.
  intros H. unfold lastn. rewrite skipn_skipn. f_equal.
  rewrite length_skipn. lia.
Qed.

Lemma lastn_nil_iff {A} (n : nat) (l : list A) :
  0 < n -> lastn n l = [] -> l = [].
Proof.
  intros Hn H. apply (f_equal (@length A)) in H.
  rewrite lastn_length in H. cbn in H.
  destruct l; [reflexivity | cbn in H; lia].
Qed.

(** The text made from the buffer is the text made from all the events:
    the bound of 200 does not show in a tail of at most 200 messages. *)
Lemma hook_tail_feed (n : nat) (events : list string) :
  n <= 200 -> hook_tail n (feed events []) = hook_tail n events.
Proof.
  intros H. rewrite feed_lastn by (cbn; lia). cbn [app].
  unfold hook_tail.
  destruct (lastn 200 events) eqn:E.
  - apply lastn_nil_iff in E; [|lia]. subst. reflexivity.
  - rewrite <- E. rewrite lastn_lastn by exact H.
    destruct events; [discriminate E|reflexivity].
Qed.

Ltac find_piece :=
  first [ apply str_in_refl
        | apply str_in_app_l; apply str_in_refl
        | apply str_in_app_r; find_piece ].

Section WithEnv.
Context {O : Os} {X : Extractor}.

(** X5. No exception leaves [run], and every run emits exactly one signal,
    whether a check fails, an attempt returns or both attempts raise. *)
Theorem run_emits_exactly_one_signal (w : DownloadWorker) (world : World) :
  fst (run w world) = Ok tt
  /\ exists sg,
       signals (snd (run w world)) = signals world ++ [sg]
       /\ emitted_by w world = [sg].
Proof.
  unfold emitted_by.
  destruct (ready w) eqn:R.
  - destruct (extract_info (length (invocations world)) (ydl_opts_of w) (video_url w))
      as [ev [info|e]] eqn:E.
    + rewrite (run_primary_ok w world ev info R E), report_eq.
      cbn [fst snd with_signal attempt_world start_world signals].
      split; [reflexivity|]. eexists. split; [reflexivity|apply skipn_length_app].
    + destruct (extract_info (S (length (invocations world)))
                  (retry_opts (ydl_opts_of w)) (video_url w))
        as [ev2 [info|e2]] eqn:E2.
      * rewrite (run_retry_ok w world ev e ev2 info R E E2), report_eq.
        cbn [fst snd with_signal attempt_world start_world signals].
        split; [reflexivity|]. eexists. split; [reflexivity|apply skipn_length_app].
      * rewrite (run_both_fail w world ev e ev2 e2 R E E2).
        cbn [fst snd with_signal attempt_world start_world signals].
        split; [reflexivity|]. eexists. split; [reflexivity|apply skipn_length_app].
  - destruct (not_ready_cases w R) as [Hc|[Hc Ht]].
    + rewrite (run_cookies_missing w world Hc).
      cbn [fst snd with_signal signals].
      split; [reflexivity|]. eexists. split; [reflexivity|apply skipn_length_app].
    + rewrite (run_tools_missing w world Hc Ht).
      cbn [fst snd with_signal start_world signals].
      split; [reflexivity|]. eexists. split; [reflexivity|apply skipn_length_app].
Qed.

(** X6. When both attempts raise, the error report is built from the
    progress events themselves: the primary part ends with the last 25
    events of the primary attempt, and the report ends with the last 50
    events of the two attempts taken together (the buffer is not emptied
    between the attempts); with no event at all the place holder text
    stands instead. *)
Theorem failure_report_trail (w : DownloadWorker) (world : World)
    (ev ev2 : list string) (e e2 : Exn) :
  ready w = true ->
  extract_info (length (invocations world)) (ydl_opts_of w) (video_url w)
    = (ev, inr e) ->
  extract_info (S (length (invocations world))) (retry_opts (ydl_opts_of w)) (video_url w)
    = (ev2, inr e2) ->
  emitted_by w world =
    [download_error
       (full_error_text (primary_error_text e ev) e2 (ev ++ ev2))]
  /\ hook_tail 25 ev =
     match ev with
     | [] => "<no hook messages>"
     | _ => join nl (skipn (length ev - 25) ev)
     end
  /\ hook_tail 50 (ev ++ ev2) =
     match ev ++ ev2 with
     | [] => "<no hook messages>"
     | _ => join nl (skipn (length (ev ++ ev2) - 50) (ev ++ ev2))
     end.
Proof.
  intros R E E2. split; [|split; reflexivity].
  unfold emitted_by. rewrite (run_both_fail w world ev e ev2 e2 R E E2).
  cbn [snd with_signal attempt_world start_world signals].
  rewrite skipn_length_app.
  unfold full_error_text, primary_error_text.
  rewrite <- feed_app.
  rewrite (hook_tail_feed 25 ev) by lia.
  rewrite (hook_tail_feed 50 (ev ++ ev2)) by lia.
  reflexivity.
Qed.

Lemma primary_error_text_mentions (e : Exn) (msgs : list string) :
  str_in (exn_type e) (primary_error_text e msgs) = true
  /\ str_in (exn_msg e) (primary_error_text e msgs) = true
  /\ str_in (format_exc e) (primary_error_text e msgs) = true.
Proof. unfold primary_error_text. repeat split; find_piece. Qed.

Lemma full_error_text_mentions (p : string) (e2 : Exn) (msgs : list string) :
  str_in p (full_error_text p e2 msgs) = true
  /\ str_in (exn_type e2) (full_error_text p e2 msgs) = true
  /\ str_in (exn_msg e2) (full_error_text p e2 msgs) = true
  /\ str_in (format_exc e2) (full_error_text p e2 msgs) = true.
Proof. unfold full_error_text. repeat split; find_piece. Qed.

(** X7. When both attempts raise, the one error report that is emitted
    contains the type name, the message and the traceback of the primary
    exception and those of the retry exception. *)
Theorem failure_report_names_both_errors (w : DownloadWorker) (world : World)
    (ev ev2 : list string) (e e2 : Exn) :
  ready w = true ->
  extract_info (length (invocations world)) (ydl_opts_of w) (video_url w)
    = (ev, inr e) ->
  extract_info (S (length (invocations world))) (retry_opts (ydl_opts_of w)) (video_url w)
    = (ev2, inr e2) ->
  exists report,
    emitted_by w world = [download_error report]
    /\ str_in (exn_type e) report = true
    /\ str_in (exn_msg e) report = true
    /\ str_in (format_exc e) report = true
    /\ str_in (exn_type e2) report = true
    /\ str_in (exn_msg e2) report = true
    /\ str_in (format_exc e2) report = true.
Proof.
  intros R E E2. eexists. split.
  - unfold emitted_by. rewrite (run_both_fail w world ev e ev2 e2 R E E2).
    cbn [snd with_signal attempt_world start_world signals].
    apply skipn_length_app.
  - destruct (primary_error_text_mentions e (feed ev [])) as (P1 & P2 & P3).
    destruct (full_error_text_mentions (primary_error_text e (feed ev [])) e2
                (feed ev2 (feed ev []))) as (F0 & F1 & F2 & F3).
    repeat split; try assumption; eapply str_in_trans; eassumption.
Qed.


End WithEnv.
End RunFacts.

(* ===================================================================== *)
(** * Further properties of the output file name *)
(* ===================================================================== *)

Module NameFacts.
Import Worker WorkerFacts SiteMatcherFacts.

(** A character that is neither disallowed nor the underscore is compared
    alike with a character and with its replacement. *)
Lemma eqb_replacement (a c : ascii) :
  reserved_char a = false -> a <> "_"%char ->
  Ascii.eqb a (if reserved_char c then "_"%char else c) = Ascii.eqb a c.
Proof.
  intros Ha Hu. destruct (reserved_char c) eqn:Hc; [|reflexivity].
  destruct (Ascii.eqb a c) eqn:E.
  - apply Ascii.eqb_eq in E. subst c. rewrite Ha in Hc. discriminate Hc.
  - apply Ascii.eqb_neq. exact Hu.
Qed.

Lemma startswith_re_sub (p s : string) :
  (forall a, char_in a p = true -> reserved_char a = false /\ a <> "_"%char) ->
  startswith (re_sub_reserved s) p = startswith s p.
Proof.
  revert s. induction p as [|a p IH]; intros s Hp; [reflexivity|].
  destruct s as [|c s]; [reflexivity|].
  cbn [re_sub_reserved startswith].
  destruct (Hp a) as [Ha Hu]; [cbn; now rewrite Ascii.eqb_refl|].
  rewrite (eqb_replacement a c Ha Hu). f_equal.
  apply IH. intros b Hb. apply Hp. cbn. rewrite Hb. apply orb_true_r.
Qed.

Lemma str_in_re_sub (p s : string) :
  (forall a, char_in a p = true -> reserved_char a = false /\ a <> "_"%char) ->
  str_in p (re_sub_reserved s) = str_in p s.
Proof.
  intros Hp. induction s as [|c s IH].
  - reflexivity.
  - change (re_sub_reserved (String c s))
      with (String (if reserved_char c then "_"%char else c) (re_sub_reserved s)).
    cbn [str_in]. rewrite IH. f_equal.
    exact (startswith_re_sub p (String c s) Hp).
Qed.

Lemma placeholder_is_plain (a : ascii) :
  char_in a ext_placeholder = true -> reserved_char a = false /\ a <> "_"%char.
Proof.
  unfold ext_placeholder. cbn. intros H.
  repeat (apply orb_true_iff in H as [H|H];
          [apply Ascii.eqb_eq in H; subst a; split; [reflexivity|discriminate]|]).
  discriminate H.
Qed.

(** X9. The substitution of line 153 neither creates nor destroys the
    extension placeholder: the test of line 154 answers on the sanitised
    name what it would answer on the name before the substitution. *)
Theorem sanitizing_keeps_placeholder_test (s : string) :
  str_in ext_placeholder (re_sub_reserved s) = str_in ext_placeholder s.
Proof. apply str_in_re_sub. exact placeholder_is_plain. Qed.

Lemma startswith_char_in (s : string) (c : ascii) :
  startswith s (String c EmptyString) = true -> char_in c s = true.
Proof.
  destruct s as [|d s]; cbn; [discriminate|].
  rewrite andb_true_r. intros H. rewrite H. reflexivity.
Qed.

Section WithOs.
Context {O : Os}.

Lemma output_filename_clean (w : DownloadWorker) (c : ascii) :
  truthy (manual_filename w) = true ->
  char_in c (output_filename w) = true -> reserved_char c = false.
Proof.
  intros H. unfold output_filename. rewrite H.
  destruct (negb (str_in ext_placeholder _) && _).
  - rewrite char_in_app. intros Hc. apply orb_true_iff in Hc as [Hc|Hc].
    + eapply re_sub_reserved_clean; eauto.
    + apply placeholder_suffix_clean; exact Hc.
  - apply re_sub_reserved_clean.
Qed.

End WithOs.

(** X10. On POSIX paths, with an explicit file name the output template
    always lies under the destination directory: the name holds no slash,
    whatever directory part the caller typed, and the template is the
    directory followed by the name, with a slash between them when the
    directory does not end with one. *)
Theorem explicit_name_stays_in_directory (fs : Posix.Fs) (w : DownloadWorker) :
  truthy (manual_filename w) = true ->
  char_in "/" (@output_filename (Posix.os fs) w) = false
  /\ startswith (@output_template (Posix.os fs) w) (directory w) = true
  /\ (@output_template (Posix.os fs) w
        = (directory w ++ @output_filename (Posix.os fs) w)%string
      \/ @output_template (Posix.os fs) w
        = (directory w ++ "/" ++ @output_filename (Posix.os fs) w)%string).
Proof.
  intros H.
  assert (Hs : char_in "/" (@output_filename (Posix.os fs) w) = false).
  { destruct (char_in "/" (@output_filename (Posix.os fs) w)) eqn:E; [|reflexivity].
    apply (@output_filename_clean (Posix.os fs) w "/"%char H) in E.
    discriminate E. }
  split; [exact Hs|].
  unfold output_template. cbn [path_join Posix.os]. unfold Posix.join.
  destruct (startswith (@output_filename (Posix.os fs) w) "/") eqn:E.
  - apply startswith_char_in in E. rewrite E in Hs. discriminate Hs.
  - destruct (negb (truthy (directory w)) || endswith_char (directory w) "/").
    + split; [apply startswith_app | left; reflexivity].
    + split; [apply startswith_app | right; reflexivity].
Qed.

Lemma explicit_name_stays_in_directory_witness :
  truthy (manual_filename (Examples.job "https://youtu.be/x" "../../etc/cron.d/x")) = true
  /\ @output_template (Posix.os Examples.fs_full)
       (Examples.job "https://youtu.be/x" "../../etc/cron.d/x")
     = "/home/u/Downloads/x"
  /\ startswith
       (@output_template (Posix.os Examples.fs_full)
          (Examples.job "https://youtu.be/x" "../../etc/cron.d/x"))
       "/home/u/Downloads" = true.
Proof.
  split; [reflexivity|]. split; [reflexivity|].
  exact (proj1 (proj2 (explicit_name_stays_in_directory Examples.fs_full
                         (Examples.job "https://youtu.be/x" "../../etc/cron.d/x")
                         eq_refl))).
Defined.

End NameFacts.

(* ===================================================================== *)
(** * Properties of the allow-list text of the configuration dialog *)
(* ===================================================================== *)

Module ConfigFacts.
Import ConfigDialog.

Lemma rstrip_idem (s : string) : rstrip (rstrip s) = rstrip s.
Proof.
  induction s as [|c s IH]; [reflexivity|].
  cbn [rstrip]. destruct (rstrip s) as [|d r] eqn:E.
  - destruct (is_space c) eqn:Hc; [reflexivity|].
    cbn [rstrip]. rewrite Hc. reflexivity.
  - cbn [rstrip]. cbn [rstrip] in IH. rewrite IH. reflexivity.
Qed.

(** A string that does not begin with white space. *)
Lemma lstrip_fixed (s : string) :
  match s with
  | EmptyString => True
  | String c _ => is_space c = false
  end -> lstrip s = s.
Proof. destruct s as [|c s]; cbn; [reflexivity|]. intros ->. reflexivity. Qed.

Lemma lstrip_head (s : string) :
  match lstrip s with
  | EmptyString => True
  | String c _ => is_space c = false
  end.
Proof.
  induction s as [|c s IH]; cbn; [exact I|].
  destruct (is_space c) eqn:E; [exact IH|exact E].
Qed.

Lemma rstrip_head (s : string) :
  match s with
  | EmptyString => True
  | String c _ => is_space c = false
  end ->
  match rstrip s with
  | EmptyString => True
  | String c _ => is_space c = false
  end.
Proof.
  destruct s as [|c s]; cbn; [trivial|].
  intros Hc. destruct (rstrip s); [rewrite Hc|]; exact Hc.
Qed.

(** [strip] is idempotent. *)
Lemma strip_idem (s : string) : strip (strip s) = strip s.
Proof.
  unfold strip.
  rewrite (lstrip_fixed (rstrip (lstrip s))).
  - apply rstrip_idem.
  - apply rstrip_head, lstrip_head.
Qed.

Lemma one_line_lstrip (s : string) : one_line s = true -> one_line (lstrip s) = true.
Proof.
  induction s as [|c s IH]; cbn; [trivial|].
  intros H. apply andb_true_iff in H as [Hc Hs].
  destruct (is_space c); [exact (IH Hs)|]. cbn. now rewrite Hc, Hs.
Qed.

Lemma one_line_rstrip (s : string) : one_line s = true -> one_line (rstrip s) = true.
Proof.
  induction s as [|c s IH]; cbn [rstrip one_line]; [trivial|].
  intros H. apply andb_true_iff in H as [Hc Hs]. specialize (IH Hs).
  destruct (rstrip s) as [|d r].
  - destruct (is_space c); cbn; [reflexivity | now rewrite Hc].
  - cbn [one_line] in *. now rewrite Hc, IH.
Qed.

Lemma one_line_strip (s : string) : one_line s = true -> one_line (strip s) = true.
Proof. intros H. unfold strip. now apply one_line_rstrip, one_line_lstrip. Qed.

Lemma splitlines_from_one_line (after_cr : bool) (s : string) :
  Forall (fun l => one_line l = true) (splitlines_from after_cr s).
Proof.
  revert after_cr. induction s as [|c s IH]; intros after_cr; cbn [splitlines_from].
  - constructor.
  - destruct (after_cr && is_lf c); [apply IH|].
    destruct (is_linebreak c) eqn:Hc.
    + constructor; [reflexivity | apply IH].
    + specialize (IH false). destruct (splitlines_from false s) as [|l ls].
      * constructor; [cbn; now rewrite Hc | constructor].
      * inversion IH; subst. constructor; [cbn; now rewrite Hc | assumption].
Qed.

(** A line without boundary, followed by a line feed, is split off whole. *)
Lemma splitlines_line (x rest : string) :
  one_line x = true ->
  splitlines (x ++ nl ++ rest) = x :: splitlines rest.
Proof.
  unfold splitlines. induction x as [|c x IH]; intros H.
  - reflexivity.
  - cbn [one_line] in H. apply andb_true_iff in H as [Hc Hx].
    apply negb_true_iff in Hc.
    change (String c x ++ nl ++ rest)%string with (String c (x ++ nl ++ rest)).
    cbn [splitlines_from andb]. rewrite Hc, (IH Hx). reflexivity.
Qed.

Lemma splitlines_single (x : string) :
  one_line x = true -> truthy x = true -> splitlines x = [x].
Proof.
  unfold splitlines. induction x as [|c x IH]; intros H Ht; [discriminate Ht|].
  cbn [one_line] in H. apply andb_true_iff in H as [Hc Hx].
  apply negb_true_iff in Hc.
  cbn [splitlines_from andb]. rewrite Hc.
  destruct x as [|d x]; [reflexivity|].
  rewrite (IH Hx eq_refl). reflexivity.
Qed.

(** An entry as the dialog writes it: not empty, no white space around it,
    no line boundary inside it. *)
Lemma splitlines_join (sites : list string) :
  Forall (fun s => truthy s = true /\ strip s = s /\ one_line s = true) sites ->
  splitlines (text_of_sites sites) = sites.
Proof.
  unfold text_of_sites. induction sites as [|x r IH]; intros H; [reflexivity|].
  inversion H as [|? ? (Ht & _ & Ho) Hr]; subst.
  destruct r as [|y r].
  - cbn [join]. apply splitlines_single; assumption.
  - change (join nl (x :: y :: r)) with (x ++ nl ++ join nl (y :: r))%string.
    rewrite (splitlines_line _ _ Ho), (IH Hr). reflexivity.
Qed.

Lemma strip_filter_fixed (sites : list string) :
  Forall (fun s => truthy s = true /\ strip s = s /\ one_line s = true) sites ->
  filter truthy (map strip sites) = sites.
Proof.
  induction 1 as [|x r (Ht & Hs & _) _ IH]; [reflexivity|].
  cbn [map filter]. rewrite Hs, Ht, IH. reflexivity.
Qed.

(** X11. An allow-list whose entries are not empty, carry no white space
    around them and hold no line boundary is read back from the text box
    exactly as it was written into it: same entries, same order. *)
Theorem sites_text_round_trip (sites : list string) :
  Forall (fun s => truthy s = true /\ strip s = s /\ one_line s = true) sites ->
  sites_of_text (text_of_sites sites) = sites.
Proof.
  intros H. unfold sites_of_text.
  rewrite (splitlines_join sites H). apply strip_filter_fixed. exact H.
Qed.

Lemma sites_of_text_clean (text : string) :
  Forall (fun s => truthy s = true /\ strip s = s /\ one_line s = true)
         (sites_of_text text).
Proof.
  unfold sites_of_text, splitlines.
  pose proof (splitlines_from_one_line false text) as H.
  induction H as [|l ls Hl _ IH]; [constructor|].
  cbn [map filter]. destruct (truthy (strip l)) eqn:Ht; [|exact IH].
  constructor; [|exact IH].
  split; [exact Ht|]. split; [apply strip_idem | apply one_line_strip; exact Hl].
Qed.

(** X12. Whatever text is in the box, the entries read from it are not
    empty, are stripped and hold no line boundary; so writing them back
    into the box and reading again gives the same list: accepting the dialog
    a second time does not change the allow-list. *)
Theorem sites_of_text_normal_form (text : string) :
  Forall (fun s => truthy s = true /\ strip s = s /\ one_line s = true)
         (sites_of_text text)
  /\ sites_of_text (text_of_sites (sites_of_text text)) = sites_of_text text.
Proof.
  split; [apply sites_of_text_clean|].
  unfold sites_of_text at 1.
  rewrite (splitlines_join _ (sites_of_text_clean text)).
  apply strip_filter_fixed, sites_of_text_clean.
Qed.

Lemma sites_text_round_trip_witness :
  sites_of_text (text_of_sites Examples.default_sites) = Examples.default_sites.
Proof.
  apply sites_text_round_trip.
  repeat constructor.
Defined.

End ConfigFacts.

(* ===================================================================== *)
(** * Properties of loading and saving the settings *)
(* ===================================================================== *)

Module SettingsFacts.
Import Settings ConfigDialog ConfigFacts.
Section WithPaths.
Variable default_save_directory : string.
Variable normpath : string -> string.




(** After the dialog is accepted, whatever was typed into it, no
    setting of the hub comes from the defaults any more (a blank field is
    taken as it is), and the allow-list holds only entries that are not
    empty, are stripped and hold no line boundary. *)
Theorem accepted_dialog_sets_every_setting (edited : DialogFields) (h : Hub.MainHub) :
  let after := accept_dialog default_save_directory normpath edited h in
  Hub.ffmpeg_path after = normpath (ffmpeg_path_input edited)
  /\ Hub.save_directory after = normpath (save_directory_input edited)
  /\ Hub.filename_template after = template_string_input edited
  /\ Hub.cookies_file after = cookies_file_input edited
  /\ Hub.supported_sites after = sites_of_text (supported_sites_input edited)
  /\ Forall (fun s => truthy s = true /\ strip s = s /\ one_line s = true)
       (Hub.supported_sites after).
Proof.
  cbv zeta. repeat split. cbn. apply sites_of_text_clean.
Qed.

End WithPaths.


End SettingsFacts.

(* ===================================================================== *)
(** * The further properties on concrete runs *)
(* ===================================================================== *)

Module MoreRuns.
Import Worker Outcome Examples RunFacts.

Lemma failure_report_trail_witness :
  @ready os_full (job "https://youtu.be/x" "") = true
  /\ @emitted_by os_full both_fail (job "https://youtu.be/x" "") empty_world
     = [download_error
          (@full_error_text both_fail
             (@primary_error_text both_fail
                {| exn_type := "DownloadError";
                   exn_msg := "Requested format is not available" |}
                ["e1"; "e2"])
             {| exn_type := "DownloadError"; exn_msg := "network unreachable" |}
             (["e1"; "e2"] ++ ["e3"]))].
Proof.
  split; [reflexivity|].
  exact (proj1 (@failure_report_trail os_full both_fail
                  (job "https://youtu.be/x" "") empty_world
                  ["e1"; "e2"] ["e3"] _ _ eq_refl eq_refl eq_refl)).
Defined.

Lemma failure_report_names_both_errors_witness :
  @ready os_full (job "https://youtu.be/x" "") = true
  /\ exists report,
       @emitted_by os_full both_fail (job "https://youtu.be/x" "") empty_world
       = [download_error report]
       /\ str_in "DownloadError" report = true
       /\ str_in "Requested format is not available" report = true
       /\ str_in "Traceback (most recent call last): Requested format is not available"
            report = true
       /\ str_in "DownloadError" report = true
       /\ str_in "network unreachable" report = true
       /\ str_in "Traceback (most recent call last): network unreachable" report = true.
Proof.
  split; [reflexivity|].
  exact (@failure_report_names_both_errors os_full both_fail
           (job "https://youtu.be/x" "") empty_world
           ["e1"; "e2"] ["e3"]
           {| exn_type := "DownloadError";
              exn_msg := "Requested format is not available" |}
           {| exn_type := "DownloadError"; exn_msg := "network unreachable" |}
           eq_refl eq_refl eq_refl).
Defined.

End MoreRuns.
